(** * DocumentIntelligenceDemo: page grouping and table structuring

    A shallow embedding of [pdf_splitter.py] (class [TaxPdfSplitter]) and
    [ocr_json_builder.py] (class [OcrJsonBuilder]), followed by the
    properties of the two engines: the page classifier and grouper, and the
    table structurer with its metadata extractor and report aggregator.

    Conventions of the embedding.
    - A Python [str] is a [string]; a character is a code point below 256
      (Latin-1), which is where Python's [\d], [\s], [str.strip] and
      [str.lower] are modelled.
    - A Python exception is the [None] of an [option] result.
    - The collaborators (rasteriser, OCR engine, PDF reader, layout service)
      are inputs: the outcome of each call is given to the function that
      makes the call. *)

From Stdlib Require Import ZArith Ascii DecimalString DecimalNat Lia.
From stdpp Require Import base option list strings gmap.

Local Open Scope stdpp_scope.

(** ** Python string primitives *)

Module PyStr.

(** [len(s)] *)
Definition len (s : string) : nat := String.length s.

(** truth value of a string: [if s], [not s] *)
Definition truthy (s : string) : bool :=
  match s with EmptyString => false | String _ _ => true end.

(** [\d] *)
Definition is_digit (c : ascii) : bool :=
  let n := N_of_ascii c in (48 <=? n)%N && (n <=? 57)%N.

(** [\s], and the characters [str.strip()] removes *)
Definition is_space (c : ascii) : bool :=
  let n := N_of_ascii c in
  ((9 <=? n)%N && (n <=? 13)%N) || ((28 <=? n)%N && (n <=? 32)%N)
  || (n =? 133)%N || (n =? 160)%N.

Definition newline : ascii := "010".

(** [.] of a regular expression without DOTALL *)
Definition is_dot (c : ascii) : bool := negb (Ascii.eqb c newline).

Definition lower_char (c : ascii) : ascii :=
  let n := N_of_ascii c in
  if ((65 <=? n)%N && (n <=? 90)%N)
     || ((192 <=? n)%N && (n <=? 222)%N && negb (n =? 215)%N)
  then ascii_of_N (n + 32) else c.

(** [s.lower()] *)
Fixpoint lower (s : string) : string :=
  match s with
  | EmptyString => EmptyString
  | String c s' => String (lower_char c) (lower s')
  end.

(** [s.startswith(p)] *)
Fixpoint startswith (p s : string) : bool :=
  match p, s with
  | EmptyString, _ => true
  | String a p', String b s' => Ascii.eqb a b && startswith p' s'
  | String _ _, EmptyString => false
  end.

(** [needle in hay] *)
Fixpoint contains (needle hay : string) : bool :=
  startswith needle hay
  || match hay with
     | EmptyString => false
     | String _ hay' => contains needle hay'
     end.

(** [s.endswith(p)]: some suffix of [s] is [p] *)
Fixpoint endswith (p s : string) : bool :=
  bool_decide (s = p)
  || match s with
     | EmptyString => false
     | String _ s' => endswith p s'
     end.

(** [s.replace(c, "")] for a one-character [c] *)
Fixpoint remove_char (c : ascii) (s : string) : string :=
  match s with
  | EmptyString => EmptyString
  | String a s' =>
      if Ascii.eqb a c then remove_char c s' else String a (remove_char c s')
  end.

(** [s.replace(c, d)] for one-character [c] and [d] *)
Fixpoint replace_char (c d : ascii) (s : string) : string :=
  match s with
  | EmptyString => EmptyString
  | String a s' => String (if Ascii.eqb a c then d else a) (replace_char c d s')
  end.

(** [s.lstrip()] *)
Fixpoint lstrip (s : string) : string :=
  match s with
  | EmptyString => EmptyString
  | String a s' => if is_space a then lstrip s' else s
  end.

(** [s.rstrip()]: the tail is stripped first; a character in front of
    an all-whitespace tail stays unless it is whitespace itself *)
Fixpoint rstrip (s : string) : string :=
  match s with
  | EmptyString => EmptyString
  | String a s' =>
      match rstrip s' with
      | EmptyString => if is_space a then EmptyString else String a EmptyString
      | r => String a r
      end
  end.

(** [s.strip()] *)
Definition strip (s : string) : string := rstrip (lstrip s).

(** [s[:-1]] *)
Fixpoint drop_last (s : string) : string :=
  match s with
  | EmptyString => EmptyString
  | String _ EmptyString => EmptyString
  | String a s' => String a (drop_last s')
  end.

(** [s[1:-1]] *)
Definition slice_1_m1 (s : string) : string :=
  match s with
  | EmptyString => EmptyString
  | String _ s' => drop_last s'
  end.

(** [str(n)] for a non-negative integer *)
Definition of_nat (n : nat) : string := NilEmpty.string_of_uint (Nat.to_uint n).

End PyStr.

(** ** pdf_splitter.py: class TaxPdfSplitter *)

Module Splitter.

(** One entry of [page_form_types] *)
Record PageRecord := {
  page_num : nat;
  page_index : nat;
  page_form_type : string;
  text_length : nat
}.

(** One entry of [form_groups] *)
Record DocumentGroup := {
  form_type : string;
  pages : list nat;
  page_indices : list nat
}.

(** One entry of the list [split_pdf] returns *)
Record SplitPdf := {
  file_path : string;
  split_form_type : string;
  split_pages : list nat
}.

(** A rasterised page; [image_to_string] is the outcome of the OCR call
    on it ([None] when the call raises). *)
Record Image := { image_to_string : option string }.

(** The collaborators of one run on [self.pdf_path]:
    [convert_from_path] is the outcome of the rasteriser ([None] when it
    raises), [reader_pages] the number of pages [PyPDF2.PdfReader] finds
    ([None] when the file cannot be opened or parsed). *)
Record Collaborators := {
  convert_from_path : option (list Image);
  reader_pages : option nat
}.

(** The output directory: [None] when it does not exist, otherwise the
    files in it, each with the source page indices copied into it. *)
Record FileSystem := { split_dir : option (list (string * list nat)) }.

Definition generic_state_label (page_num : nat) : string :=
  "State - Unknown (Page " +:+ PyStr.of_nat (page_num + 1) +:+ ")".

Definition identify_form_type (text_lower : string) (page_num : nat) : string :=
  let has k := PyStr.contains k text_lower in
  if has "form 1040" || (has "1040" && has "comparison") then "Federal"
  else if has "north carolina" then
    if has "d-400" || has "d 400" then "State - North Carolina (D-400)"
    else "State - North Carolina"
  else if has "ohio" then
    if has "it-1040" || has "it 1040" || has "it1040" then "State - Ohio (IT-1040)"
    else if has "nonresident" then "State - Ohio (Nonresident)"
    else "State - Ohio"
  else if has "california" then
    if has "540" then "State - California (540)" else "State - California"
  else if has "new york" then
    if has "it-201" || has "it 201" then "State - New York (IT-201)"
    else "State - New York"
  else if has "texas" then "State - Texas"
  else if has "florida" then "State - Florida"
  else if has "pennsylvania" then "State - Pennsylvania"
  else if has "new jersey" then "State - New Jersey"
  else if has "illinois" then "State - Illinois"
  else if has "massachusetts" then "State - Massachusetts"
  else if has "state" && (has "income tax" || has "return" || has "comparison")
  then generic_state_label page_num
  else "Unknown".

(** The body of the [for page_num, image in enumerate(images)] loop;
    [None] when [image_to_string] raises. *)
Fixpoint ocr_pages (page_num : nat) (images : list Image)
    (page_form_types : list PageRecord) : option (list PageRecord) :=
  match images with
  | [] => Some page_form_types
  | image :: rest =>
      match image_to_string image with
      | None => None
      | Some text =>
          let text_lower := PyStr.lower text in
          let form_type := identify_form_type text_lower page_num in
          ocr_pages (S page_num) rest
            (page_form_types ++
               [{| page_num := page_num + 1; page_index := page_num;
                   page_form_type := form_type;
                   text_length := PyStr.len text |}])
      end
  end.

Definition detect_form_types_with_ocr (w : Collaborators) : list PageRecord :=
  match convert_from_path w with
  | None => []
  | Some images =>
      match ocr_pages 0 images [] with
      | None => []
      | Some page_form_types => page_form_types
      end
  end.

Definition should_group_with_previous (previous_form current_form : string) : bool :=
  if bool_decide (previous_form = current_form) then true
  else if bool_decide (previous_form = "Federal")
          && bool_decide (current_form = "Unknown") then true
  else false.

Definition start_group (page_info : PageRecord) : DocumentGroup :=
  {| form_type := page_form_type page_info;
     pages := [page_num page_info];
     page_indices := [page_index page_info] |}.

Definition add_to_group (g : DocumentGroup) (page_info : PageRecord) : DocumentGroup :=
  {| form_type := form_type g;
     pages := pages g ++ [page_num page_info];
     page_indices := page_indices g ++ [page_index page_info] |}.

(** One iteration of the grouping loop on the state
    [(groups, current_group)]. *)
Definition group_step (st : list DocumentGroup * option DocumentGroup)
    (page_info : PageRecord) : list DocumentGroup * option DocumentGroup :=
  let '(groups, current_group) := st in
  match current_group with
  | None => (groups, Some (start_group page_info))
  | Some g =>
      if should_group_with_previous (form_type g) (page_form_type page_info)
      then (groups, Some (add_to_group g page_info))
      else (groups ++ [g], Some (start_group page_info))
  end.

Definition group_pages_intelligently (page_form_types : list PageRecord)
    : list DocumentGroup :=
  match page_form_types with
  | [] => []
  | _ =>
      let '(groups, current_group) := foldl group_step ([], None) page_form_types in
      match current_group with
      | Some g => groups ++ [g]
      | None => groups
      end
  end.

(** [os.path.join(a, b)] for a relative [b] *)
Definition path_join (a b : string) : string :=
  if negb (PyStr.truthy a) || PyStr.endswith "/" a then a +:+ b
  else a +:+ "/" +:+ b.

Definition form_name (form_type : string) : string :=
  PyStr.remove_char "-"
    (PyStr.remove_char ")"
       (PyStr.remove_char "(" (PyStr.replace_char " " "_" form_type))).

(** [open(output_path, "wb")] in the output directory, which was just made
    and is empty but for the files written before, on a POSIX file system:
    the call raises when the file name holds "/" (the path then leads
    through a directory that does not exist) or the NUL character. The
    limits of a file system on the length of a name are not modelled. *)
Definition opens_for_writing (output_filename : string) : bool :=
  negb (PyStr.contains "/" output_filename)
  && negb (PyStr.contains (String "000" "") output_filename).

(** The [for counter, group in enumerate(form_groups, start=1)] loop on
    the state [(files, split_pdfs)]; [None] in the first component when
    [pdf_reader.pages[page_index]] or [open(output_path, "wb")] raises. *)
Fixpoint write_groups (output_dir : string) (num_pages counter : nat)
    (form_groups : list DocumentGroup) (files : list (string * list nat))
    (split_pdfs : list SplitPdf)
    : option (list SplitPdf) * list (string * list nat) :=
  match form_groups with
  | [] => (Some split_pdfs, files)
  | group :: rest =>
      let output_filename :=
        PyStr.of_nat counter +:+ "_" +:+ form_name (form_type group) +:+ ".pdf" in
      let output_path := path_join output_dir output_filename in
      if forallb (fun page_index => page_index <? num_pages)%nat (page_indices group)
         && opens_for_writing output_filename
      then write_groups output_dir num_pages (S counter) rest
             (files ++ [(output_filename, page_indices group)])
             (split_pdfs ++
                [{| file_path := output_path;
                    split_form_type := form_type group;
                    split_pages := pages group |}])
      else (None, files)
  end.

Definition create_split_pdfs (output_dir : string) (w : Collaborators)
    (form_groups : list DocumentGroup) (fs : FileSystem)
    : list SplitPdf * FileSystem :=
  match reader_pages w with
  | None => ([], {| split_dir := Some [] |})
  | Some num_pages =>
      let '(r, files) := write_groups output_dir num_pages 1 form_groups [] [] in
      (default [] r, {| split_dir := Some files |})
  end.

Definition split_pdf (output_dir : string) (w : Collaborators) (fs : FileSystem)
    : list SplitPdf * FileSystem :=
  let page_form_types := detect_form_types_with_ocr w in
  match page_form_types with
  | [] => ([], fs)
  | _ =>
      let form_groups := group_pages_intelligently page_form_types in
      create_split_pdfs output_dir w form_groups fs
  end.

End Splitter.

(** ** Regular expressions of ocr_json_builder.py *)

Module PyRe.

(** A sequence of character classes matched at the start of [s]; the
    result is the matched text. *)
Fixpoint match_seq (pat : list (ascii → bool)) (s : string) : option string :=
  match pat with
  | [] => Some ""
  | p :: pat' =>
      match s with
      | String a s' => if p a then String a <$> match_seq pat' s' else None
      | EmptyString => None
      end
  end.

(** [re.search]: the leftmost position where [pat] matches *)
Fixpoint search_seq (pat : list (ascii → bool)) (s : string) : option string :=
  match match_seq pat s with
  | Some m => Some m
  | None =>
      match s with
      | EmptyString => None
      | String _ s' => search_seq pat s'
      end
  end.

Definition is_char (c : ascii) : ascii → bool := Ascii.eqb c.

(** [\d{3}-\d{2}-\d{4}] *)
Definition ssn_pattern : list (ascii → bool) :=
  replicate 3 PyStr.is_digit ++ [is_char "-"] ++
  replicate 2 PyStr.is_digit ++ [is_char "-"] ++
  replicate 4 PyStr.is_digit.

(** [[\d$,\(\)\-\.]] *)
Definition numeric_class (c : ascii) : bool :=
  PyStr.is_digit c || is_char "$" c || is_char "," c || is_char "(" c
  || is_char ")" c || is_char "-" c || is_char "." c.

(** [re.search] of a one-character class *)
Fixpoint search_class (p : ascii → bool) (s : string) : bool :=
  match s with
  | EmptyString => false
  | String a s' => p a || search_class p s'
  end.

(** Greedy [p*] followed by the rest of the pattern [k]: the longest run
    is tried first and given back one character at a time while [k]
    fails. [k] receives the text matched by [p*] and the remaining input. *)
Fixpoint greedy_star {A} (p : ascii → bool) (k : string → string → option A)
    (s : string) : option A :=
  match s with
  | String a s' =>
      if p a then
        match greedy_star p (λ m r, k (String a m) r) s' with
        | Some x => Some x
        | None => k "" s
        end
      else k "" s
  | EmptyString => k "" s
  end.

(** Greedy [p+] followed by [k] *)
Definition greedy_plus {A} (p : ascii → bool) (k : string → string → option A)
    (s : string) : option A :=
  match s with
  | String a s' =>
      if p a then greedy_star p (λ m r, k (String a m) r) s' else None
  | EmptyString => None
  end.

(** [$]: the end of the string, or just before a newline that ends it *)
Definition at_end (s : string) : bool :=
  match s with
  | EmptyString => true
  | String a EmptyString => Ascii.eqb a PyStr.newline
  | _ => false
  end.

(** [re.match(r"^(\d+)\.\s*(.+)$", s)]: groups 1 and 2 *)
Definition line_item_re (s : string) : option (string * string) :=
  greedy_plus PyStr.is_digit (λ g1 r1,
    match r1 with
    | String "." r2 =>
        greedy_star PyStr.is_space (λ _ r3,
          greedy_plus PyStr.is_dot (λ g2 r4,
            if at_end r4 then Some (g1, g2) else None) r3) r2
    | _ => None
    end) s.

End PyRe.

(** ** ocr_json_builder.py: class OcrJsonBuilder *)

Module Builder.

(** What the layout service returns *)
Record DocumentTableCell := {
  row_index : Z;
  column_index : Z;
  content : option string
}.

Record DocumentTable := {
  row_count : Z;
  column_count : Z;
  cells : list DocumentTableCell
}.

Record DocumentPage := { page_number : Z }.

Record AnalyzeResult := {
  result_pages : option (list DocumentPage);
  result_tables : option (list DocumentTable)
}.

(** One entry of [split_pdfs] *)
Record PdfInfo := {
  file_path : string;
  form_type : option string
}.

(** The output tree *)
Record ColumnSpec := {
  columnIndex : nat;
  columnId : string;
  columnName : string;
  dataType : string
}.

Record FieldValue := {
  fieldColumnIndex : nat;
  fieldColumnId : string;
  fieldColumnName : string;
  value : string;
  cleanedValue : string
}.

Record LineItem := { lineNumber : string; description : string }.

Record RowRecord := {
  rowIndex : nat;
  rowId : string;
  fields : list FieldValue;
  lineItem : option LineItem
}.

Record TableRecord := {
  formType : string;
  rowCount : Z;
  columnCount : Z;
  columns : list ColumnSpec;
  data : list RowRecord
}.

Record Report := {
  pageCount : nat;
  tableCount : nat;
  metadata : gmap string string;
  tables : list TableRecord
}.

Abbreviation Grid := (list (list string)).

(** [range(n)] *)
Definition range (n : Z) : list nat := seq 0 (Z.to_nat n).

(** [range(1, n)] *)
Definition range_from_1 (n : Z) : list nat := seq 1 (Z.to_nat n - 1).

(** The position a list of length [n] gives to the index [i]; negative
    indices count from the end, [None] is IndexError. *)
Definition py_index (n : nat) (i : Z) : option nat :=
  if (0 <=? i)%Z then
    if (i <? Z.of_nat n)%Z then Some (Z.to_nat i) else None
  else if (- Z.of_nat n <=? i)%Z then Some (Z.to_nat (Z.of_nat n + i))
  else None.

(** [grid[r][c] = v] *)
Definition set_cell (grid : Grid) (r c : Z) (v : string) : option Grid :=
  i ← py_index (length grid) r;
  row ← grid !! i;
  j ← py_index (length row) c;
  Some (<[i := <[j := v]> row]> grid).

(** [grid[r][c]] for indices that come from a [range] *)
Definition get_cell (grid : Grid) (r c : nat) : option string :=
  row ← grid !! r; row !! c.

(** [for cell in table.cells: grid[...][...] = (cell.content or "").strip()] *)
Fixpoint fill_grid (cells : list DocumentTableCell) (grid : Grid) : option Grid :=
  match cells with
  | [] => Some grid
  | cell :: rest =>
      grid' ← set_cell grid (row_index cell) (column_index cell)
                (PyStr.strip (default "" (content cell)));
      fill_grid rest grid'
  end.

Definition empty_grid (table : DocumentTable) : Grid :=
  replicate (Z.to_nat (row_count table))
    (replicate (Z.to_nat (column_count table)) "").

Definition build_grid (table : DocumentTable) : option Grid :=
  fill_grid (cells table) (empty_grid table).

(** *** 3. Extract metadata *)

Definition name_like (cell : string) : bool :=
  PyStr.contains "&" cell && (10 <? PyStr.len cell)%nat.

Definition search_ssn (cell : string) : option string :=
  PyRe.search_seq PyRe.ssn_pattern cell.

(** The body of the innermost loop, on one cell *)
Definition scan_cell (metadata : gmap string string) (cell : string)
    : gmap string string :=
  if negb (PyStr.truthy cell) then metadata
  else
    let metadata :=
      if name_like cell && bool_decide (metadata !! "taxpayerName" = None)
      then <["taxpayerName" := cell]> metadata else metadata in
    match search_ssn cell with
    | Some ssn =>
        if bool_decide (metadata !! "taxpayerId" = None)
        then <["taxpayerId" := ssn]> metadata else metadata
    | None => metadata
    end.

(** [for c in range(table.column_count)] at row [r] *)
Fixpoint scan_columns (grid : Grid) (r : nat) (cs : list nat)
    (metadata : gmap string string) : option (gmap string string) :=
  match cs with
  | [] => Some metadata
  | c :: cs' =>
      cell ← get_cell grid r c;
      scan_columns grid r cs' (scan_cell metadata cell)
  end.

(** [for r in range(min(3, table.row_count))] *)
Fixpoint scan_rows (grid : Grid) (rs cs : list nat)
    (metadata : gmap string string) : option (gmap string string) :=
  match rs with
  | [] => Some metadata
  | r :: rs' =>
      metadata' ← scan_columns grid r cs metadata;
      scan_rows grid rs' cs metadata'
  end.

Definition scan_table (table : DocumentTable) (metadata : gmap string string)
    : option (gmap string string) :=
  grid ← build_grid table;
  scan_rows grid (range (Z.min 3 (row_count table)))
    (range (column_count table)) metadata.

(** [for table in result.tables or []] *)
Fixpoint scan_tables (ts : list DocumentTable) (metadata : gmap string string)
    : option (gmap string string) :=
  match ts with
  | [] => Some metadata
  | table :: ts' =>
      metadata' ← scan_table table metadata;
      scan_tables ts' metadata'
  end.

(** The dictionary [metadata] after the call; [None] when it raises. *)
Definition extract_metadata (result : AnalyzeResult)
    (metadata : gmap string string) : option (gmap string string) :=
  scan_tables (default [] (result_tables result)) metadata.

(** *** 5. Detect form type *)

(** The tests on one cell; [None] when none of them returns *)
Definition detect_in_cell (cell : string) : option string :=
  let c := PyStr.lower cell in
  if PyStr.contains "1040" c then Some "Federal (1040)"
  else if PyStr.contains "ohio" c then Some "State - Ohio"
  else if PyStr.contains "north carolina" c || PyStr.contains "d-400" c
  then Some "State - North Carolina"
  else if PyStr.contains "california" c || PyStr.contains "540" c
  then Some "State - California"
  else None.

(** [for cell in grid[r]] *)
Fixpoint detect_in_row (row : list string) : option string :=
  match row with
  | [] => None
  | cell :: row' =>
      match detect_in_cell cell with
      | Some label => Some label
      | None => detect_in_row row'
      end
  end.

(** [for r in range(min(3, len(grid)))], on the rows [grid[r]] *)
Fixpoint detect_in_rows (rows : list (list string)) : option string :=
  match rows with
  | [] => None
  | row :: rows' =>
      match detect_in_row row with
      | Some label => Some label
      | None => detect_in_rows rows'
      end
  end.

Definition detect_form_type (grid : Grid) : string :=
  default "Unknown" (detect_in_rows (take (Nat.min 3 (length grid)) grid)).

(** *** 6. Helpers *)

(** One iteration of the sampling loop on [(numeric_count, text_count)] *)
Definition infer_step (col : nat) (counts : nat * nat) (r : list string)
    : nat * nat :=
  let '(numeric_count, text_count) := counts in
  if (length r <=? col)%nat then counts
  else
    match r !! col with
    | None => counts
    | Some cell =>
        if negb (PyStr.truthy cell) then counts
        else if PyRe.search_class PyRe.numeric_class cell
        then (numeric_count + 1, text_count)
        else (numeric_count, text_count + 1)
    end.

Definition infer_data_type (grid : Grid) (col : nat) : string :=
  let '(numeric_count, text_count) :=
    foldl (infer_step col) (0, 0) (take 5 (drop 1 grid)) in
  if (text_count <? numeric_count)%nat then "numeric" else "text".

Definition clean_value (value data_type : string) : string :=
  if negb (PyStr.truthy value) then ""
  else if bool_decide (data_type = "numeric") then
    let v :=
      PyStr.strip
        (PyStr.remove_char "|"
           (PyStr.remove_char " "
              (PyStr.remove_char "," (PyStr.remove_char "$" value)))) in
    if PyStr.startswith "(" v && PyStr.endswith ")" v
    then "-" +:+ PyStr.slice_1_m1 v
    else v
  else PyStr.strip value.

Fixpoint try_extract_line_item (fields : list FieldValue) : option LineItem :=
  match fields with
  | [] => None
  | f :: fields' =>
      let val := value f in
      match PyRe.line_item_re val with
      | Some (g1, g2) => Some {| lineNumber := g1; description := g2 |}
      | None => try_extract_line_item fields'
      end
  end.

(** *** 4. Generate hybrid JSON tables *)

(** The body of [for c in range(table.column_count)] *)
Definition make_column (grid : Grid) (c : nat) : option ColumnSpec :=
  header ← get_cell grid 0 c;
  let col_name := if PyStr.truthy header then header
                  else "Column_" +:+ PyStr.of_nat c in
  Some {| columnIndex := c;
          columnId := "col_" +:+ PyStr.of_nat c;
          columnName := col_name;
          dataType := infer_data_type grid c |}.

(** The body of [for c, col in enumerate(table_data["columns"])] *)
Definition make_field (grid : Grid) (r : nat) (ccol : nat * ColumnSpec)
    : option FieldValue :=
  let '(c, col) := ccol in
  val ← get_cell grid r c;
  Some {| fieldColumnIndex := c;
          fieldColumnId := columnId col;
          fieldColumnName := columnName col;
          value := val;
          cleanedValue := clean_value val (dataType col) |}.

(** [enumerate(l)] *)
Definition enumerate {A} (l : list A) : list (nat * A) :=
  zip (seq 0 (length l)) l.

(** The body of [for r in range(1, table.row_count)] *)
Definition make_row (grid : Grid) (columns : list ColumnSpec) (r : nat)
    : option RowRecord :=
  fields ← mapM (make_field grid r) (enumerate columns);
  let line_item := try_extract_line_item fields in
  Some {| rowIndex := r;
          rowId := "row_" +:+ PyStr.of_nat r;
          fields := fields;
          lineItem := line_item |}.

(** The body of the [try] for one table; [None] when it raises *)
Definition structure_table (table : DocumentTable) : option TableRecord :=
  grid ← build_grid table;
  let formType := detect_form_type grid in
  columns ← mapM (make_column grid) (range (column_count table));
  data ← mapM (make_row grid columns) (range_from_1 (row_count table));
  Some {| formType := formType;
          rowCount := row_count table;
          columnCount := column_count table;
          columns := columns;
          data := data |}.

(** One iteration of [for t_index, table in enumerate(result.tables or [])]
    on [tables_out]: the [except] branch leaves it as it is. *)
Definition structure_step (tables_out : list TableRecord)
    (table : DocumentTable) : list TableRecord :=
  match structure_table table with
  | Some table_data => tables_out ++ [table_data]
  | None => tables_out
  end.

Definition generate_hybrid_structure (result : AnalyzeResult)
    (form_type : string) : list TableRecord :=
  foldl structure_step [] (default [] (result_tables result)).

(** *** 2. Run the layout service *)

(** [outcome] is what [begin_analyze_document(...).result()] does on the
    file: [None] when it raises. The progress line takes [len] of
    [result.pages] and of [result.tables] inside the [try]. *)
Definition run_azure_layout (outcome : option AnalyzeResult)
    : option AnalyzeResult :=
  match outcome with
  | None => None
  | Some result =>
      match result_pages result, result_tables result with
      | Some _, Some _ => Some result
      | _, _ => None
      end
  end.

(** *** 1. Entry point for split PDFs *)

Definition empty_report : Report :=
  {| pageCount := 0; tableCount := 0; metadata := ∅; tables := [] |}.

(** One iteration of [for pdf_info in split_pdfs]; [layout] gives the
    outcome of the service call for a file path. [None] when the
    iteration raises. *)
Definition process_pdf (layout : string → option AnalyzeResult)
    (report : Report) (pdf_info : PdfInfo) : option Report :=
  let pdf_path := file_path pdf_info in
  let form_type := default "Unknown" (form_type pdf_info) in
  match run_azure_layout (layout pdf_path) with
  | None => Some report
  | Some result =>
      let page_count := pageCount report + length (default [] (result_pages result)) in
      let table_count := tableCount report + length (default [] (result_tables result)) in
      metadata' ← extract_metadata result (metadata report);
      let tables := generate_hybrid_structure result form_type in
      Some {| pageCount := page_count;
              tableCount := table_count;
              metadata := metadata';
              tables := Builder.tables report ++ tables |}
  end.

Fixpoint process_loop (layout : string → option AnalyzeResult)
    (split_pdfs : list PdfInfo) (report : Report) : option Report :=
  match split_pdfs with
  | [] => Some report
  | pdf_info :: rest =>
      report' ← process_pdf layout report pdf_info;
      process_loop layout rest report'
  end.

Definition process_split_pdfs (layout : string → option AnalyzeResult)
    (split_pdfs : list PdfInfo) : option Report :=
  process_loop layout split_pdfs empty_report.

End Builder.

(** ** Notions the properties are stated with *)

Module Props.
Import Splitter.

(** The group a single page opens *)
Definition singleton_group (p : PageRecord) : DocumentGroup :=
  {| form_type := page_form_type p;
     pages := [page_num p];
     page_indices := [page_index p] |}.

(** The page numbers held by the loop state of the grouper *)
Definition state_pages (st : list DocumentGroup * option DocumentGroup) : list nat :=
  concat (pages <$> st.1) ++ from_option pages [] st.2.

(** No rule before the generic state rule fires on the text, and the
    generic state rule does. *)
Definition generic_rule_applies (text_lower : string) : bool :=
  let has k := PyStr.contains k text_lower in
  negb (has "form 1040" || (has "1040" && has "comparison"))
  && negb (has "north carolina") && negb (has "ohio")
  && negb (has "california") && negb (has "new york") && negb (has "texas")
  && negb (has "florida") && negb (has "pennsylvania")
  && negb (has "new jersey") && negb (has "illinois")
  && negb (has "massachusetts")
  && (has "state" && (has "income tax" || has "return" || has "comparison")).

(** The classification pass fails: the rasteriser raises, or the OCR call
    raises on one of the pages. *)
Definition ocr_pass_fails (w : Collaborators) : bool :=
  match convert_from_path w with
  | None => true
  | Some images => existsb (λ image, bool_decide (image_to_string image = None)) images
  end.

(** Sample inputs *)

Definition three_pages : list PageRecord :=
  [ {| page_num := 1; page_index := 0; page_form_type := "Federal"; text_length := 10 |};
    {| page_num := 2; page_index := 1; page_form_type := "Unknown"; text_length := 0 |};
    {| page_num := 3; page_index := 2; page_form_type := "State - Ohio"; text_length := 7 |} ].

Definition labelled_page (label : string) (n : nat) : PageRecord :=
  {| page_num := n; page_index := n - 1; page_form_type := label; text_length := 0 |}.

Definition federal_page : nat → PageRecord := labelled_page "Federal".
Definition unknown_page : nat → PageRecord := labelled_page "Unknown".
Definition ohio_page : nat → PageRecord := labelled_page "State - Ohio".

(** A three-page scan on which the OCR call raises at the second page,
    and an output directory left by an earlier run. *)
Definition failing_scan : Collaborators :=
  {| convert_from_path :=
       Some [ {| image_to_string := Some "Form 1040" |};
              {| image_to_string := None |};
              {| image_to_string := Some "Ohio IT-1040" |} ];
     reader_pages := Some 3 |}.

Definition earlier_run : FileSystem :=
  {| split_dir := Some [("1_Federal.pdf", [0; 1])] |}.

(** The characters numeric cleaning takes out of a value *)
Definition is_symbol (c : ascii) : bool :=
  bool_decide (c = "$"%char)
  || (bool_decide (c = ","%char)
      || (bool_decide (c = " "%char) || bool_decide (c = "|"%char))).

(** [s] without the characters that satisfy [p] *)
Fixpoint without (p : ascii → bool) (s : string) : string :=
  match s with
  | EmptyString => EmptyString
  | String a s' => if p a then without p s' else String a (without p s')
  end.

(** Some character of [s] satisfies [p] *)
Definition has_char (p : ascii → bool) (s : string) : bool :=
  PyRe.search_class p s.

(** Column [col] of rows 1 to 5 of the grid, as far as they exist *)
Definition sampled_cells (grid : list (list string)) (col : nat) : list string :=
  omap (λ r : list string, r !! col) (take 5 (drop 1 grid)).

(** How many cells of [l] satisfy [p] *)
Definition count (p : string → bool) (l : list string) : nat :=
  length (List.filter p l).

(** A cell with a character of the class of [infer_data_type]: a digit,
    "$", ",", "(", ")", "-" or "." *)
Definition numeric_like (cell : string) : bool :=
  has_char PyRe.numeric_class cell.

(** The class as the specification words it: digits, currency symbol,
    parentheses, decimal point, hyphen *)
Definition worded_class (c : ascii) : bool :=
  PyStr.is_digit c || bool_decide (c = "$"%char) || bool_decide (c = "("%char)
  || bool_decide (c = ")"%char) || bool_decide (c = "."%char)
  || bool_decide (c = "-"%char).

(** Type inference as the specification words it: of the sampled cells,
    those with a character of the worded class against those without. *)
Definition worded_infer_data_type (grid : list (list string)) (col : nat) : string :=
  let sample := sampled_cells grid col in
  if (count (λ cell, negb (has_char worded_class cell)) sample
      <? count (has_char worded_class) sample)%nat
  then "numeric" else "text".

Definition names_grid : list (list string) := [["Name"]; ["Smith, John"]].

(** Every character of [s] satisfies [p] *)
Fixpoint all_chars (p : ascii → bool) (s : string) : bool :=
  match s with
  | EmptyString => true
  | String a s' => p a && all_chars p s'
  end.

(** A description as it stands in a stripped cell: not empty, no
    whitespace in front, no newline *)
Definition description_like (rest : string) : bool :=
  match rest with
  | EmptyString => false
  | String a _ => negb (PyStr.is_space a) && all_chars PyStr.is_dot rest
  end.

(** A field of column [c] with the raw value [val] *)
Definition raw_field (c : nat) (val : string) : Builder.FieldValue :=
  {| Builder.fieldColumnIndex := c;
     Builder.fieldColumnId := "col_" +:+ PyStr.of_nat c;
     Builder.fieldColumnName := "Column_" +:+ PyStr.of_nat c;
     Builder.value := val;
     Builder.cleanedValue := val |}.

(** A grid of [rc] rows of [cc] cells *)
Definition has_dims (grid : list (list string)) (rc cc : nat) : Prop :=
  length grid = rc ∧ Forall (λ row, length row = cc) grid.

(** The cells of a table in the order the metadata scan visits them:
    rows 0 to 2 of its grid, row by row, each from column 0 on. *)
Definition table_cells (table : Builder.DocumentTable) : list string :=
  match Builder.build_grid table with
  | Some grid => concat (take 3 grid)
  | None => []
  end.

(** The scanned cells of a document, table by table *)
Definition result_cells (result : Builder.AnalyzeResult) : list string :=
  concat (table_cells <$> default [] (Builder.result_tables result)).

(** What the layout service gives for a split document that is not skipped *)
Definition processed (layout : string → option Builder.AnalyzeResult)
    (pdf_info : Builder.PdfInfo) : option Builder.AnalyzeResult :=
  Builder.run_azure_layout (layout (Builder.file_path pdf_info)).

(** The scanned cells of a run, document by document *)
Definition run_cells (layout : string → option Builder.AnalyzeResult)
    (split_pdfs : list Builder.PdfInfo) : list string :=
  concat ((λ pdf_info, from_option result_cells [] (processed layout pdf_info))
            <$> split_pdfs).

(** The number of tables the layout service returned over a run *)
Definition tables_returned (layout : string → option Builder.AnalyzeResult)
    (split_pdfs : list Builder.PdfInfo) : nat :=
  sum_list ((λ pdf_info,
               from_option (λ result, length (default [] (Builder.result_tables result)))
                 0 (processed layout pdf_info))
              <$> split_pdfs).

(** Sample tables: one with a taxpayer line and a data row, one with
    another taxpayer line, one that declares a column and no row (its
    header cannot be read), one with a cell outside of the declared grid. *)
Definition cell_at (r c : Z) (text : string) : Builder.DocumentTableCell :=
  {| Builder.row_index := r; Builder.column_index := c;
     Builder.content := Some text |}.

Definition taxpayer_table : Builder.DocumentTable :=
  {| Builder.row_count := 2; Builder.column_count := 2;
     Builder.cells := [ cell_at 0 0 " John & Jane Doe ";
                        cell_at 0 1 "SSN 123-45-6789";
                        cell_at 1 0 "1. Wages";
                        cell_at 1 1 "$1,000" ] |}.

Definition second_table : Builder.DocumentTable :=
  {| Builder.row_count := 1; Builder.column_count := 1;
     Builder.cells := [ cell_at 0 0 "Mary & Mark Roe 987-65-4321" ] |}.

Definition rowless_table : Builder.DocumentTable :=
  {| Builder.row_count := 0; Builder.column_count := 1; Builder.cells := [] |}.

Definition overflowing_table : Builder.DocumentTable :=
  {| Builder.row_count := 1; Builder.column_count := 1;
     Builder.cells := [ cell_at 5 0 "stray" ] |}.

Definition federal_result : Builder.AnalyzeResult :=
  {| Builder.result_pages := Some [ {| Builder.page_number := 1 |};
                                    {| Builder.page_number := 2 |} ];
     Builder.result_tables := Some [taxpayer_table; rowless_table; second_table] |}.

Definition state_result : Builder.AnalyzeResult :=
  {| Builder.result_pages := Some [ {| Builder.page_number := 1 |} ];
     Builder.result_tables := Some [second_table] |}.

Definition overflowing_result : Builder.AnalyzeResult :=
  {| Builder.result_pages := Some [ {| Builder.page_number := 1 |} ];
     Builder.result_tables := Some [taxpayer_table; overflowing_table] |}.

(** A layout service that knows three files and raises on any other *)
Definition sample_layout (pdf_path : string) : option Builder.AnalyzeResult :=
  if bool_decide (pdf_path = "split_pdfs/1_Federal.pdf") then Some federal_result
  else if bool_decide (pdf_path = "split_pdfs/3_State__Ohio.pdf") then Some state_result
  else if bool_decide (pdf_path = "split_pdfs/4_Unknown.pdf") then Some overflowing_result
  else None.

Definition split_doc (pdf_path label : string) : Builder.PdfInfo :=
  {| Builder.file_path := pdf_path; Builder.form_type := Some label |}.

Definition federal_doc : Builder.PdfInfo :=
  split_doc "split_pdfs/1_Federal.pdf" "Federal".
Definition lost_doc : Builder.PdfInfo :=
  split_doc "split_pdfs/2_Unknown.pdf" "Unknown".
Definition state_doc : Builder.PdfInfo :=
  split_doc "split_pdfs/3_State__Ohio.pdf" "State - Ohio".
Definition overflowing_doc : Builder.PdfInfo :=
  split_doc "split_pdfs/4_Unknown.pdf" "Unknown".

(** The report of a run, when the run returns one *)
Definition report_of (layout : string → option Builder.AnalyzeResult)
    (split_pdfs : list Builder.PdfInfo) : Builder.Report :=
  default Builder.empty_report (Builder.process_split_pdfs layout split_pdfs).

End Props.

(** ** ocr_json_builder.py: main *)

Module Runner.

(** What a run of [main] finds: whether "comparison.pdf" exists, the
    collaborators of the splitter, the two variables [os.getenv] reads
    after [load_dotenv()], and the layout service. *)
Record Environment := {
  pdf_exists : bool;
  collaborators : Splitter.Collaborators;
  endpoint : option string;
  key : option string;
  layout : string → option Builder.AnalyzeResult
}.

(** How [main] ends: one of its early returns, the ValueError of
    [OcrJsonBuilder.__init__], an exception out of [process_split_pdfs],
    or the report. The construction of the service client in [__init__]
    is taken to return. *)
Inductive Outcome :=
| PdfNotFound
| NoPdfsSplit
| CredentialsMissing
| RunRaised
| Completed (report : Builder.Report).

(** [os.path.join(os.path.dirname("comparison.pdf"), "split_pdfs")] *)
Definition output_dir : string := Splitter.path_join "" "split_pdfs".

(** The entry of [split_pdfs] as [process_split_pdfs] reads it *)
Definition to_pdf_info (pdf : Splitter.SplitPdf) : Builder.PdfInfo :=
  {| Builder.file_path := Splitter.file_path pdf;
     Builder.form_type := Some (Splitter.split_form_type pdf) |}.

(** [not endpoint or not key] of [__init__] *)
Definition credentials_missing (endpoint key : option string) : bool :=
  negb (from_option PyStr.truthy false endpoint)
  || negb (from_option PyStr.truthy false key).

Definition main (env : Environment) (fs : Splitter.FileSystem)
    : Outcome * Splitter.FileSystem :=
  if negb (pdf_exists env) then (PdfNotFound, fs)
  else
    let '(split_pdfs, fs') := Splitter.split_pdf output_dir (collaborators env) fs in
    match split_pdfs with
    | [] => (NoPdfsSplit, fs')
    | _ =>
        if credentials_missing (endpoint env) (key env)
        then (CredentialsMissing, fs')
        else
          match Builder.process_split_pdfs (layout env) (to_pdf_info <$> split_pdfs) with
          | Some report => (Completed report, fs')
          | None => (RunRaised, fs')
          end
    end.

End Runner.

(** ** Further notions the properties are stated with *)

Module Notions.
Import Splitter.

(** The group made of a run of consecutive pages *)
Definition group_of_run (run : list PageRecord) : DocumentGroup :=
  {| form_type := from_option page_form_type "" (head run);
     pages := page_num <$> run;
     page_indices := page_index <$> run |}.

(** A run starts with a page, and every later page of it is accepted by
    the adjacency rule against the label of that first page. *)
Definition is_run (run : list PageRecord) : Prop :=
  match run with
  | [] => False
  | p :: qs =>
      Forall (λ q, should_group_with_previous (page_form_type p)
                     (page_form_type q) = true) qs
  end.

(** The first page of [next] is refused by the adjacency rule against the
    label of the run [run]. *)
Definition breaks_after (run next : list PageRecord) : Prop :=
  match head run, head next with
  | Some p, Some q =>
      should_group_with_previous (page_form_type p) (page_form_type q) = false
  | _, _ => True
  end.

(** Every two neighbouring runs are separated by a refusal. *)
Fixpoint separated (runs : list (list PageRecord)) : Prop :=
  match runs with
  | run :: (next :: _) as rest => breaks_after run next ∧ separated rest
  | _ => True
  end.

(** The name of the file written for the group with the given counter *)
Definition split_file_name (counter : nat) (g : DocumentGroup) : string :=
  PyStr.of_nat counter +:+ "_" +:+ form_name (form_type g) +:+ ".pdf".

(** The entry returned for the group with the given counter *)
Definition split_entry (output_dir : string) (counter : nat) (g : DocumentGroup)
    : SplitPdf :=
  {| file_path := path_join output_dir (split_file_name counter g);
     split_form_type := form_type g;
     split_pages := pages g |}.

(** Every page index of the group is a page of a source of [num_pages] pages *)
Definition in_source (num_pages : nat) (g : DocumentGroup) : bool :=
  forallb (λ page_index, page_index <? num_pages)%nat (page_indices g).

(** The characters a file name cannot hold: "/" and NUL *)
Definition breaks_name (c : ascii) : bool :=
  bool_decide (c = "/"%char) || bool_decide (c = "000"%char).

(** The form type of the group holds no character a file name cannot hold *)
Definition names_a_file (g : DocumentGroup) : bool :=
  negb (Props.has_char breaks_name (form_type g)).

(** The file of the group can be written from a source of [num_pages] pages *)
Definition can_be_written (num_pages : nat) (g : DocumentGroup) : bool :=
  in_source num_pages g && names_a_file g.


(** The record the classification pass makes of the page at [page_num] *)
Definition page_record (page_num : nat) (text : string) : PageRecord :=
  {| page_num := page_num + 1; page_index := page_num;
     page_form_type := identify_form_type (PyStr.lower text) page_num;
     text_length := PyStr.len text |}.

(** A page image the OCR engine reads as [text] *)
Definition read_as (text : string) : Image := {| image_to_string := Some text |}.

(** A scan of three pages that the OCR engine reads *)
Definition readable_scan : Collaborators :=
  {| convert_from_path :=
       Some [ {| image_to_string := Some "Form 1040 U.S. Individual" |};
              {| image_to_string := Some "" |};
              {| image_to_string := Some "Ohio IT-1040" |} ];
     reader_pages := Some 3 |}.


(** *** Tables *)

(** The position of the grid a cell of the table is written to *)
Definition cell_position (table : Builder.DocumentTable)
    (cell : Builder.DocumentTableCell) : option (nat * nat) :=
  i ← Builder.py_index (Z.to_nat (Builder.row_count table)) (Builder.row_index cell);
  j ← Builder.py_index (Z.to_nat (Builder.column_count table)) (Builder.column_index cell);
  Some (i, j).

(** The text a cell of the table leaves in the grid *)
Definition cell_text (cell : Builder.DocumentTableCell) : string :=
  PyStr.strip (default "" (Builder.content cell)).

(** The texts written to position (r, c), in the order of the cell list *)
Definition written_at (table : Builder.DocumentTable) (r c : nat) : list string :=
  omap (λ cell, if bool_decide (cell_position table cell = Some (r, c))
                then Some (cell_text cell) else None)
    (Builder.cells table).

(** The text at (r, c), the empty text outside of the grid *)
Definition text_at (grid : list (list string)) (r c : nat) : string :=
  default "" (Builder.get_cell grid r c).

(** The column, the field and the row of the output, read off the grid *)
Definition column_of (grid : list (list string)) (c : nat) : Builder.ColumnSpec :=
  {| Builder.columnIndex := c;
     Builder.columnId := "col_" +:+ PyStr.of_nat c;
     Builder.columnName :=
       if PyStr.truthy (text_at grid 0 c) then text_at grid 0 c
       else "Column_" +:+ PyStr.of_nat c;
     Builder.dataType := Builder.infer_data_type grid c |}.

Definition field_of (grid : list (list string)) (r c : nat) : Builder.FieldValue :=
  {| Builder.fieldColumnIndex := c;
     Builder.fieldColumnId := Builder.columnId (column_of grid c);
     Builder.fieldColumnName := Builder.columnName (column_of grid c);
     Builder.value := text_at grid r c;
     Builder.cleanedValue :=
       Builder.clean_value (text_at grid r c) (Builder.infer_data_type grid c) |}.

Definition row_of (grid : list (list string)) (cc r : nat) : Builder.RowRecord :=
  {| Builder.rowIndex := r;
     Builder.rowId := "row_" +:+ PyStr.of_nat r;
     Builder.fields := field_of grid r <$> seq 0 cc;
     Builder.lineItem :=
       Builder.try_extract_line_item (field_of grid r <$> seq 0 cc) |}.

(** A table with a cell that cannot be written to its grid: one of the
    indices of the cell is outside of the declared rows and columns *)
Definition breaks_grid (table : Builder.DocumentTable) : Prop :=
  Exists (λ cell, cell_position table cell = None) (Builder.cells table).

(** The tables the layout service returned for a document *)
Definition tables_of (result : Builder.AnalyzeResult) : list Builder.DocumentTable :=
  default [] (Builder.result_tables result).

(** A document that is processed and has a table that breaks its grid *)
Definition document_breaks (layout : string → option Builder.AnalyzeResult)
    (pdf_info : Builder.PdfInfo) : Prop :=
  ∃ result, Props.processed layout pdf_info = Some result
            ∧ Exists breaks_grid (tables_of result).

(** The number of pages the layout service returned over a run *)
Definition pages_returned (layout : string → option Builder.AnalyzeResult)
    (split_pdfs : list Builder.PdfInfo) : nat :=
  sum_list ((λ pdf_info,
               from_option (λ result, length (default [] (Builder.result_pages result)))
                 0 (Props.processed layout pdf_info))
              <$> split_pdfs).

(** The tables of a run that structure, document by document *)
Definition structured_tables (layout : string → option Builder.AnalyzeResult)
    (split_pdfs : list Builder.PdfInfo) : list Builder.TableRecord :=
  concat ((λ pdf_info,
             from_option (λ result, omap Builder.structure_table (tables_of result))
               [] (Props.processed layout pdf_info))
            <$> split_pdfs).

(** A text without whitespace at either end *)
Definition is_trimmed (s : string) : Prop := PyStr.strip s = s.

(** A table with an empty header cell in its third column *)
Definition headed_table : Builder.DocumentTable :=
  {| Builder.row_count := 2; Builder.column_count := 3;
     Builder.cells := [ Props.cell_at 0 0 "Line"; Props.cell_at 0 1 " Amount ";
                        Props.cell_at 1 0 "12. Wages"; Props.cell_at 1 1 "$(1,234.50)";
                        Props.cell_at 1 (-1) "x"; Props.cell_at (-1) 2 "note" ] |}.

(** A run on a scan that is read, with no endpoint in the environment,
    and a run on a scan on which the OCR call raises *)
Definition run_without_endpoint : Runner.Environment :=
  {| Runner.pdf_exists := true;
     Runner.collaborators := readable_scan;
     Runner.endpoint := None;
     Runner.key := Some "secret";
     Runner.layout := Props.sample_layout |}.

Definition run_on_failing_scan : Runner.Environment :=
  {| Runner.pdf_exists := true;
     Runner.collaborators := Props.failing_scan;
     Runner.endpoint := Some "https://layout.example";
     Runner.key := Some "secret";
     Runner.layout := Props.sample_layout |}.

End Notions.

(** * Properties *)
(** ** Properties of the page grouper *)

Section Grouping.
Import Splitter Props.

Lemma group_step_pages st p :
  state_pages (group_step st p) = state_pages st ++ [page_num p].
Proof.
  destruct st as [groups [g|]]; unfold state_pages, group_step; simpl.
  - destruct (should_group_with_previous _ _); simpl.
    + by rewrite (assoc_L (++)).
    + rewrite fmap_app, concat_app. simpl. by rewrite app_nil_r.
  - by rewrite app_nil_r.
Qed.

Lemma group_loop_pages l st :
  state_pages (foldl group_step st l) = state_pages st ++ (page_num <$> l).
Proof.
  revert st. induction l as [|p l IH]; intros st; simpl.
  - by rewrite app_nil_r.
  - rewrite IH, group_step_pages. by rewrite <- app_assoc.
Qed.

(** Closing the last group leaves the pages of the loop state as they are. *)
Lemma group_pages_concat (l : list PageRecord) :
  concat (pages <$> group_pages_intelligently l) = page_num <$> l.
Proof.
  destruct l as [|p l]; [done|].
  unfold group_pages_intelligently.
  pose proof (group_loop_pages (p :: l) ([], None)) as H.
  destruct (foldl group_step ([], None) (p :: l)) as [groups [g|]];
    unfold state_pages in H; simpl in H.
  - rewrite fmap_app, concat_app. simpl. by rewrite app_nil_r.
  - by rewrite app_nil_r in H.
Qed.

(** The OCR loop numbers the pages it appends from [page_num + 1] on. *)
Lemma ocr_pages_numbering images k acc l :
  ocr_pages k images acc = Some l →
  page_num <$> l = (page_num <$> acc) ++ seq (k + 1) (length images).
Proof.
  revert k acc. induction images as [|[o] images IH]; intros k acc; simpl.
  - intros [= <-]. by rewrite app_nil_r.
  - destruct o as [text|]; [|done]. intros H%IH.
    rewrite H, fmap_app. simpl. rewrite <- app_assoc. simpl.
    by replace (S k + 1) with (S (k + 1)) by lia.
Qed.

Lemma ocr_pages_length images k acc l :
  ocr_pages k images acc = Some l → length l = length acc + length images.
Proof.
  revert k acc. induction images as [|[o] images IH]; intros k acc; simpl.
  - intros [= <-]. lia.
  - destruct o as [text|]; [|done]. intros H%IH.
    rewrite H, length_app. simpl. lia.
Qed.

(** What the classification pass returns is numbered 1..N. *)
Lemma detect_form_types_numbering w :
  let l := detect_form_types_with_ocr w in
  page_num <$> l = seq 1 (length l).
Proof.
  unfold detect_form_types_with_ocr.
  destruct (convert_from_path w) as [images|]; [|done].
  destruct (ocr_pages 0 images []) as [l|] eqn:H; [|done]. simpl.
  rewrite (ocr_pages_numbering _ _ _ _ H), (ocr_pages_length _ _ _ _ H). done.
Qed.

(** C1. For every page sequence numbered 1..N, the page lists of the
    groups, concatenated in group order, are the sequence 1..N, so every
    page occurs in exactly one group and exactly once; the empty sequence
    gives no group. *)
Theorem grouping_partitions_pages (l : list PageRecord) :
  page_num <$> l = seq 1 (length l) →
  concat (pages <$> group_pages_intelligently l) = seq 1 (length l)
  ∧ NoDup (concat (pages <$> group_pages_intelligently l))
  ∧ group_pages_intelligently [] = [].
Proof.
  intros H. rewrite group_pages_concat, H.
  split; [done|]. split; [apply NoDup_seq|done].
Qed.

Lemma grouping_partitions_pages_witness :
  concat (pages <$> group_pages_intelligently three_pages) = [1; 2; 3]
  ∧ NoDup (concat (pages <$> group_pages_intelligently three_pages))
  ∧ group_pages_intelligently [] = [].
Proof. apply (grouping_partitions_pages three_pages). reflexivity. Defined.

End Grouping.

(** ** The adjacency rule *)

Section Adjacency.
Import Splitter Props.

Lemma should_group_with_previous_spec prev cur :
  should_group_with_previous prev cur = true
  ↔ prev = cur ∨ (prev = "Federal" ∧ cur = "Unknown").
Proof.
  unfold should_group_with_previous.
  repeat case_bool_decide; simpl; intuition congruence.
Qed.

Lemma should_group_with_previous_false prev cur :
  prev ≠ cur → ¬ (prev = "Federal" ∧ cur = "Unknown") →
  should_group_with_previous prev cur = false.
Proof.
  intros H1 H2. apply not_true_is_false.
  rewrite should_group_with_previous_spec. tauto.
Qed.

(** C2. A page labelled "Unknown" joins the current group exactly when
    that group is "Federal" (or "Unknown" itself); Federal, Unknown,
    Federal is one group of three pages, and StateX, Unknown, StateX is
    three groups of one page when StateX is neither label. *)
Theorem federal_continuation (X : string) (f1 u f2 s1 s2 : PageRecord) :
  page_form_type f1 = "Federal" → page_form_type u = "Unknown" →
  page_form_type f2 = "Federal" →
  page_form_type s1 = X → page_form_type s2 = X →
  X ≠ "Federal" → X ≠ "Unknown" →
  (∀ prev, should_group_with_previous prev "Unknown" = true
           ↔ prev = "Federal" ∨ prev = "Unknown")
  ∧ group_pages_intelligently [f1; u; f2]
    = [ {| form_type := "Federal";
           pages := [page_num f1; page_num u; page_num f2];
           page_indices := [page_index f1; page_index u; page_index f2] |} ]
  ∧ group_pages_intelligently [s1; u; s2]
    = [ singleton_group s1; singleton_group u; singleton_group s2 ].
Proof.
  intros Hf1 Hu Hf2 Hs1 Hs2 HXF HXU. split; [|split].
  - intros prev. rewrite should_group_with_previous_spec. intuition congruence.
  - unfold group_pages_intelligently. simpl. unfold start_group. simpl.
    rewrite Hf1, Hu. simpl. rewrite Hf2. simpl. done.
  - unfold group_pages_intelligently. simpl. unfold start_group. simpl.
    rewrite Hs1, Hu.
    rewrite (should_group_with_previous_false X "Unknown") by (intuition congruence).
    simpl. rewrite Hs2.
    rewrite (should_group_with_previous_false "Unknown" X) by (intuition congruence).
    unfold singleton_group, start_group. by rewrite Hs1, Hu, Hs2.
Qed.

Lemma federal_continuation_witness :
  (∀ prev, should_group_with_previous prev "Unknown" = true
           ↔ prev = "Federal" ∨ prev = "Unknown")
  ∧ group_pages_intelligently [federal_page 1; unknown_page 2; federal_page 3]
    = [ {| form_type := "Federal"; pages := [1; 2; 3]; page_indices := [0; 1; 2] |} ]
  ∧ group_pages_intelligently [ohio_page 1; unknown_page 2; ohio_page 3]
    = [ {| form_type := "State - Ohio"; pages := [1]; page_indices := [0] |};
        {| form_type := "Unknown"; pages := [2]; page_indices := [1] |};
        {| form_type := "State - Ohio"; pages := [3]; page_indices := [2] |} ].
Proof.
  apply (federal_continuation "State - Ohio" (federal_page 1) (unknown_page 2)
           (federal_page 3) (ohio_page 1) (ohio_page 3));
    first [reflexivity | discriminate].
Defined.

End Adjacency.

(** ** Strings: concatenation and decimal numerals *)

Section StringFacts.

Lemma str_app_nil (t : string) : "" +:+ t = t.
Proof. reflexivity. Qed.

Lemma str_app_cons (a : ascii) (s t : string) :
  String a s +:+ t = String a (s +:+ t).
Proof. reflexivity. Qed.

Lemma str_app_nil_r (s : string) : s +:+ "" = s.
Proof. induction s as [|a s IH]; [done|]. by rewrite str_app_cons, IH. Qed.

Lemma str_app_length (s t : string) :
  String.length (s +:+ t) = String.length s + String.length t.
Proof.
  induction s as [|a s IH]; [done|].
  rewrite str_app_cons. simpl. by rewrite IH.
Qed.

Lemma str_app_inj_r (s1 s2 t : string) : s1 +:+ t = s2 +:+ t → s1 = s2.
Proof.
  revert s2. induction s1 as [|a s1 IH]; intros [|b s2] H.
  - done.
  - apply (f_equal String.length) in H.
    rewrite str_app_nil, str_app_cons in H. simpl in H. rewrite str_app_length in H. lia.
  - apply (f_equal String.length) in H.
    rewrite str_app_nil, str_app_cons in H. simpl in H. rewrite str_app_length in H. lia.
  - rewrite !str_app_cons in H. injection H as -> H. f_equal. by apply IH.
Qed.

Lemma of_nat_inj (n m : nat) : PyStr.of_nat n = PyStr.of_nat m → n = m.
Proof.
  unfold PyStr.of_nat. intros H.
  apply DecimalNat.Unsigned.to_uint_inj.
  apply (f_equal NilEmpty.uint_of_string) in H.
  rewrite !NilEmpty.usu in H. congruence.
Qed.

End StringFacts.

(** ** The form identifier *)

Section FormIdentifier.
Import Splitter Props.

Lemma generic_state_label_inj i j :
  generic_state_label i = generic_state_label j → i = j.
Proof.
  unfold generic_state_label. intros H.
  apply (inj (String.app _)) in H.
  apply str_app_inj_r, of_nat_inj in H. lia.
Qed.

Lemma generic_state_label_prefix i :
  PyStr.startswith "State - Unknown (Page " (generic_state_label i) = true.
Proof. reflexivity. Qed.

Ltac split_on_keywords :=
  repeat match goal with
    | |- context [PyStr.contains ?k ?t] => destruct (PyStr.contains k t); simpl
    end.

(** The generic state rule gives the page-numbered label. *)
Lemma identify_generic t i :
  generic_rule_applies t = true →
  identify_form_type t i = generic_state_label i.
Proof.
  unfold generic_rule_applies, identify_form_type.
  split_on_keywords; done.
Qed.

(** Every other rule gives a label that is not of the generic shape. *)
Lemma identify_other t i :
  identify_form_type t i = generic_state_label i
  ∨ PyStr.startswith "State - Unknown (Page " (identify_form_type t i) = false.
Proof.
  unfold identify_form_type. split_on_keywords; auto.
Qed.

(** C9. The generic state label determines the page: a page that falls
    through to the generic state rule gets the label of its own ordinal,
    labels of distinct ordinals differ, and no other page, whatever its
    text, gets the same label. *)
Theorem generic_state_label_distinct (t1 t2 : string) (i j : nat) :
  i ≠ j → generic_rule_applies t1 = true →
  identify_form_type t1 i = generic_state_label i
  ∧ generic_state_label i ≠ generic_state_label j
  ∧ identify_form_type t2 j ≠ identify_form_type t1 i.
Proof.
  intros Hij H1. rewrite (identify_generic t1 i H1).
  split; [done|]. split.
  - intros H%generic_state_label_inj. done.
  - destruct (identify_other t2 j) as [-> | Hno].
    + intros H%generic_state_label_inj. done.
    + intros H. rewrite H, generic_state_label_prefix in Hno. done.
Qed.

Lemma generic_state_label_distinct_witness :
  identify_form_type "state income tax" 0 = generic_state_label 0
  ∧ generic_state_label 0 ≠ generic_state_label 1
  ∧ identify_form_type "ohio state return" 1 ≠ identify_form_type "state income tax" 0.
Proof.
  apply (generic_state_label_distinct "state income tax" "ohio state return" 0 1);
    [lia | reflexivity].
Defined.

End FormIdentifier.

(** ** The classification pass *)

Section ClassificationPass.
Import Splitter Props.

Lemma ocr_pages_raises images k acc :
  existsb (λ image, bool_decide (image_to_string image = None)) images = true →
  ocr_pages k images acc = None.
Proof.
  revert k acc. induction images as [|[o] images IH]; intros k acc; simpl.
  - done.
  - destruct o as [text|]; simpl; [|done]. apply IH.
Qed.

Lemma ocr_pages_returns images k acc :
  existsb (λ image, bool_decide (image_to_string image = None)) images = false →
  ∃ l, ocr_pages k images acc = Some l.
Proof.
  revert k acc. induction images as [|[o] images IH]; intros k acc; simpl.
  - eauto.
  - destruct o as [text|]; simpl; [|done]. apply IH.
Qed.

(** When no call raises, every page of the document is classified. *)
Lemma detect_form_types_all_pages w images :
  convert_from_path w = Some images → ocr_pass_fails w = false →
  length (detect_form_types_with_ocr w) = length images.
Proof.
  unfold ocr_pass_fails, detect_form_types_with_ocr. intros -> H.
  destruct (ocr_pages_returns images 0 [] H) as [l Hl]. rewrite Hl.
  by rewrite (ocr_pages_length _ _ _ _ Hl).
Qed.

(** C8. When the rasteriser or the OCR call on any page raises, the
    classification pass returns no page at all, and the splitter returns
    no split document and leaves the output directory as it was. *)
Theorem ocr_failure_is_all_or_nothing (output_dir : string)
    (w : Collaborators) (fs : FileSystem) :
  ocr_pass_fails w = true →
  detect_form_types_with_ocr w = []
  ∧ split_pdf output_dir w fs = ([], fs).
Proof.
  unfold ocr_pass_fails. intros H.
  assert (detect_form_types_with_ocr w = []) as Hd.
  { unfold detect_form_types_with_ocr.
    destruct (convert_from_path w) as [images|]; [|done].
    by rewrite (ocr_pages_raises _ _ _ H). }
  split; [done|]. unfold split_pdf. by rewrite Hd.
Qed.

Lemma ocr_failure_is_all_or_nothing_witness :
  detect_form_types_with_ocr failing_scan = []
  ∧ split_pdf "split_pdfs" failing_scan earlier_run = ([], earlier_run).
Proof.
  apply (ocr_failure_is_all_or_nothing "split_pdfs" failing_scan earlier_run).
  reflexivity.
Defined.

End ClassificationPass.

(** ** Cleaning a value *)

Section CleanValue.
Import Builder Props.
Local Arguments Ascii.eqb : simpl never.

Lemma eqb_bool_decide (a c : ascii) : Ascii.eqb a c = bool_decide (a = c).
Proof.
  destruct (Ascii.eqb_spec a c);
    [by rewrite bool_decide_eq_true_2 | by rewrite bool_decide_eq_false_2].
Qed.

Lemma remove_char_without c s :
  PyStr.remove_char c s = without (λ a, bool_decide (a = c)) s.
Proof.
  induction s as [|a s IH]; simpl; [done|].
  by rewrite eqb_bool_decide, IH.
Qed.

Lemma without_without p q s :
  without q (without p s) = without (λ a, p a || q a) s.
Proof.
  induction s as [|a s IH]; simpl; [done|].
  destruct (p a); simpl; [done|]. destruct (q a); by rewrite IH.
Qed.

(** The four [replace] calls take out exactly the symbols. *)
Lemma replace_chain_without value :
  PyStr.remove_char "|"
    (PyStr.remove_char " " (PyStr.remove_char "," (PyStr.remove_char "$" value)))
  = without is_symbol value.
Proof.
  rewrite !remove_char_without, !without_without. reflexivity.
Qed.

Lemma has_char_without p s : has_char p (without p s) = false.
Proof.
  induction s as [|a s IH]; simpl; [done|].
  destruct (p a) eqn:E; [done|]. unfold has_char in *. simpl. by rewrite E, IH.
Qed.

Lemma has_char_lstrip p s :
  has_char p s = false → has_char p (PyStr.lstrip s) = false.
Proof.
  unfold has_char. induction s as [|a s IH]; simpl; [done|].
  intros [Ha Hs]%orb_false_elim.
  destruct (PyStr.is_space a); [by apply IH|]. simpl. by rewrite Ha, Hs.
Qed.

Lemma has_char_rstrip p s :
  has_char p s = false → has_char p (PyStr.rstrip s) = false.
Proof.
  unfold has_char. induction s as [|a s IH]; simpl; [done|].
  intros [Ha Hs]%orb_false_elim. specialize (IH Hs).
  destruct (PyStr.rstrip s) as [|b r].
  - destruct (PyStr.is_space a); simpl; [done|]. by rewrite Ha.
  - simpl. rewrite Ha. done.
Qed.

Lemma has_char_drop_last p s :
  has_char p s = false → has_char p (PyStr.drop_last s) = false.
Proof.
  unfold has_char. induction s as [|a s IH]; simpl; [done|].
  intros [Ha Hs]%orb_false_elim. specialize (IH Hs).
  destruct s as [|b s]; [done|]. simpl in *. rewrite Ha. done.
Qed.

Lemma startswith_paren v :
  PyStr.startswith "(" v = true ↔ ∃ t, v = String "(" t.
Proof.
  destruct v as [|a v]; simpl.
  - split; [done|]. by intros [t ?].
  - rewrite andb_true_r, Ascii.eqb_eq. split.
    + intros <-. eauto.
    + intros [t [= -> _]]. done.
Qed.

Lemma endswith_char c v :
  PyStr.endswith (String c "") v = true ↔ ∃ m, v = m +:+ String c "".
Proof.
  induction v as [|a v IH]; simpl.
  - split; [done|]. intros [[|b m] H]; rewrite ?str_app_nil, ?str_app_cons in H; done.
  - rewrite orb_true_iff, bool_decide_eq_true, IH. split.
    + intros [H | [m ->]].
      * exists "". by rewrite str_app_nil.
      * exists (String a m). by rewrite str_app_cons.
    + intros [[|b m] H]; rewrite ?str_app_nil, ?str_app_cons in H.
      * by left.
      * injection H as -> ->. right. eauto.
Qed.

Lemma drop_last_app m c : PyStr.drop_last (m +:+ String c "") = m.
Proof.
  induction m as [|a m IH]; [done|].
  rewrite str_app_cons. simpl. rewrite IH.
  destruct m; [by rewrite str_app_nil|]. by rewrite str_app_cons.
Qed.

(** The test of [clean_value] for a value in parentheses *)
Lemma wrapped_iff v :
  PyStr.startswith "(" v && PyStr.endswith ")" v = true
  ↔ ∃ inner, v = "(" +:+ inner +:+ ")".
Proof.
  rewrite andb_true_iff, startswith_paren, endswith_char. split.
  - intros [[t ->] [[|a m] H]]; rewrite ?str_app_nil, ?str_app_cons in H.
    + done.
    + injection H as <- ->. by exists m.
  - intros [inner ->]. split.
    + by exists (inner +:+ ")").
    + by exists (String "(" inner).
Qed.

Lemma clean_value_numeric value :
  let v := PyStr.strip (without is_symbol value) in
  clean_value value "numeric"
  = if PyStr.startswith "(" v && PyStr.endswith ")" v
    then "-" +:+ PyStr.slice_1_m1 v else v.
Proof.
  unfold clean_value. destruct value as [|a value]; [done|].
  simpl negb. cbv iota. rewrite bool_decide_eq_true_2 by done.
  by rewrite replace_chain_without.
Qed.

(** C5. Numeric cleaning takes "$", ",", spaces and "|" out of the
    value and trims it; a result in parentheses loses them and gets "-"
    in front, any other result is passed through; the cleaned value holds
    none of the four symbols. Text cleaning only trims. *)
Theorem clean_value_spec (value : string) :
  let v := PyStr.strip (without is_symbol value) in
  (∀ inner, v = "(" +:+ inner +:+ ")" →
            clean_value value "numeric" = "-" +:+ inner)
  ∧ ((∀ inner, v ≠ "(" +:+ inner +:+ ")") → clean_value value "numeric" = v)
  ∧ has_char is_symbol (clean_value value "numeric") = false
  ∧ (∀ data_type, data_type ≠ "numeric" →
                  clean_value value data_type = PyStr.strip value)
  ∧ clean_value "$(1,234.50)" "numeric" = "-1234.50"
  ∧ clean_value "1,000" "numeric" = "1000"
  ∧ clean_value "" "numeric" = "".
Proof.
  intros v. pose proof (clean_value_numeric value) as Hn.
  cbv zeta in Hn. fold v in Hn.
  assert (has_char is_symbol v = false) as Hv.
  { apply has_char_rstrip, has_char_lstrip, has_char_without. }
  clearbody v.
  repeat split; try reflexivity.
  - intros inner Hi. rewrite Hn.
    rewrite (proj2 (wrapped_iff v)) by eauto.
    rewrite Hi. simpl. rewrite str_app_nil.
    by rewrite drop_last_app.
  - intros Hno. rewrite Hn.
    destruct (PyStr.startswith "(" v && PyStr.endswith ")" v) eqn:E; [|done].
    apply wrapped_iff in E as [inner E]. by destruct (Hno inner).
  - rewrite Hn.
    destruct (PyStr.startswith "(" v && PyStr.endswith ")" v); [|done].
    rewrite str_app_cons, str_app_nil. unfold has_char. simpl.
    destruct v as [|a v']; [done|]. simpl.
    apply has_char_drop_last. unfold has_char in *. simpl in Hv.
    by apply orb_false_elim in Hv as [_ ?].
  - intros data_type Hd. unfold clean_value.
    destruct value as [|a value]; [done|]. simpl negb. cbv iota.
    by rewrite bool_decide_eq_false_2.
Qed.

Lemma clean_value_spec_witness :
  clean_value "( 1,200 )" "numeric" = "-1200"
  ∧ clean_value "$ 45|" "numeric" = "45"
  ∧ clean_value " Wages " "text" = "Wages".
Proof.
  pose proof (clean_value_spec "( 1,200 )") as (H1 & _).
  pose proof (clean_value_spec "$ 45|") as (_ & H2 & _).
  pose proof (clean_value_spec " Wages ") as (_ & _ & _ & H3 & _).
  split; [|split].
  - apply (H1 "1200"). reflexivity.
  - apply H2. intros inner. vm_compute. discriminate.
  - apply (H3 "text"). discriminate.
Defined.

End CleanValue.

(** ** Column type inference *)

Section TypeInference.
Import Builder Props.

Lemma infer_step_counts col counts r :
  infer_step col counts r
  = (counts.1 + count numeric_like (List.filter PyStr.truthy (option_list (r !! col))),
     counts.2 + count (λ cell, negb (numeric_like cell))
                  (List.filter PyStr.truthy (option_list (r !! col)))).
Proof.
  destruct counts as [n t]. unfold infer_step, count, numeric_like, has_char.
  destruct (Nat.leb_spec (length r) col) as [Hle|Hlt].
  - rewrite (lookup_ge_None_2 r col Hle). simpl. f_equal; lia.
  - destruct (r !! col) as [cell|]; simpl; [|f_equal; lia].
    destruct (PyStr.truthy cell); simpl; [|f_equal; lia].
    destruct (PyRe.search_class PyRe.numeric_class cell); simpl; f_equal; lia.
Qed.

Lemma filter_app_list {A} (p : A → bool) (l1 l2 : list A) :
  List.filter p (l1 ++ l2) = List.filter p l1 ++ List.filter p l2.
Proof. induction l1 as [|a l1 IH]; simpl; [done|]. destruct (p a); by rewrite IH. Qed.

Lemma count_app p l1 l2 : count p (l1 ++ l2) = count p l1 + count p l2.
Proof. unfold count. by rewrite filter_app_list, length_app. Qed.

(** The sampling loop counts the non-empty sampled cells. *)
Lemma infer_loop_counts col rows counts :
  let sample := List.filter PyStr.truthy (omap (λ r : list string, r !! col) rows) in
  foldl (infer_step col) counts rows
  = (counts.1 + count numeric_like sample,
     counts.2 + count (λ cell, negb (numeric_like cell)) sample).
Proof.
  revert counts. induction rows as [|r rows IH]; intros counts; simpl.
  - destruct counts. unfold count. simpl. f_equal; lia.
  - rewrite IH, infer_step_counts. simpl.
    destruct (r !! col) as [cell|]; simpl.
    + set (rest := List.filter _ (omap _ rows)).
      change (List.filter _ (list_omap _ _ _ rows)) with rest.
      destruct (PyStr.truthy cell).
      * change (cell :: rest) with ([cell] ++ rest).
        rewrite !count_app. by rewrite !Nat.add_assoc.
      * unfold count at 1 3. simpl. by rewrite !Nat.add_0_r.
    + unfold count at 1 3. simpl. by rewrite !Nat.add_0_r.
Qed.

(** C4, as the code has it. Of the cells sampled from rows 1 to 5, the
    non-empty ones are counted: those with a digit, "$", ",", "(", ")",
    "-" or "." against those without; the type is "numeric" exactly when
    the first count is strictly larger, and "text" otherwise, so a tie is
    "text". *)
Theorem infer_data_type_counts (grid : list (list string)) (col : nat) :
  let sample := List.filter PyStr.truthy (sampled_cells grid col) in
  let numeric_count := count numeric_like sample in
  let text_count := count (λ cell, negb (numeric_like cell)) sample in
  (infer_data_type grid col = "numeric" ↔ text_count < numeric_count)
  ∧ (infer_data_type grid col = "text" ↔ numeric_count ≤ text_count)
  ∧ (numeric_count = text_count → infer_data_type grid col = "text").
Proof.
  intros sample numeric_count text_count.
  assert (infer_data_type grid col
          = if (text_count <? numeric_count)%nat then "numeric" else "text") as ->.
  { unfold infer_data_type.
    rewrite (infer_loop_counts col (take 5 (drop 1 grid)) (0, 0)). done. }
  destruct (Nat.ltb_spec text_count numeric_count); repeat split;
    intros; try done; lia.
Qed.

Lemma infer_data_type_counts_witness :
  infer_data_type [["Amount"; "Note"]; ["12.50"; "a"]; ["n/a"; "b"]] 0 = "text".
Proof.
  apply (infer_data_type_counts
           [["Amount"; "Note"]; ["12.50"; "a"]; ["n/a"; "b"]] 0).
  reflexivity.
Defined.

(** C4, as the specification words it, fails: a name with a comma is a
    numeric sample for the code, and not one for the worded class. *)
Lemma infer_data_type_comma_counterexample :
  infer_data_type names_grid 0 = "numeric"
  ∧ worded_infer_data_type names_grid 0 = "text".
Proof. split; reflexivity. Qed.

(** An empty cell is no sample for the code, and a cell without a
    character of the class for the wording. *)
Example infer_data_type_skips_empty_cells :
  infer_data_type [["h"]; ["1"]; [""]; [""]] 0 = "numeric"
  ∧ worded_infer_data_type [["h"]; ["1"]; [""]; [""]] 0 = "text".
Proof. split; reflexivity. Qed.

End TypeInference.

(** ** Line items *)

Section LineItems.
Import Builder Props.
Local Arguments Ascii.eqb : simpl never.

(** What a greedy repetition hands to the rest of the pattern is a run
    of the class in front of the input. *)
Lemma greedy_star_sound {A} p (k : string → string → option A) s x :
  PyRe.greedy_star p k s = Some x →
  ∃ m r, s = m +:+ r ∧ all_chars p m = true ∧ k m r = Some x.
Proof.
  revert k. induction s as [|a s IH]; intros k; simpl.
  - intros H. by exists "", "".
  - destruct (p a) eqn:Hp.
    + destruct (PyRe.greedy_star p _ s) as [y|] eqn:E.
      * intros [= ->]. apply IH in E as (m & r & -> & Hm & Hk).
        exists (String a m), r. simpl. by rewrite Hp, Hm.
      * intros H. by exists "", (String a s).
    + intros H. by exists "", (String a s).
Qed.

Lemma greedy_plus_sound {A} p (k : string → string → option A) s x :
  PyRe.greedy_plus p k s = Some x →
  ∃ m r, s = m +:+ r ∧ m ≠ "" ∧ all_chars p m = true ∧ k m r = Some x.
Proof.
  unfold PyRe.greedy_plus. destruct s as [|a s]; [done|].
  destruct (p a) eqn:Hp; [|done].
  intros (m & r & -> & Hm & Hk)%greedy_star_sound.
  exists (String a m), r. simpl. by rewrite Hp, Hm.
Qed.

(** A run of the class that is followed by a character outside of it is
    taken whole when the rest of the pattern accepts it. *)
Lemma greedy_star_whole {A} p (k : string → string → option A) m r x :
  all_chars p m = true →
  match r with EmptyString => true | String a _ => negb (p a) end = true →
  k m r = Some x →
  PyRe.greedy_star p k (m +:+ r) = Some x.
Proof.
  revert k. induction m as [|a m IH]; intros k Hm Hr Hk.
  - rewrite str_app_nil. destruct r as [|b r]; simpl; [done|].
    apply negb_true_iff in Hr. by rewrite Hr.
  - simpl in Hm. apply andb_true_iff in Hm as [Ha Hm].
    rewrite str_app_cons. simpl. rewrite Ha.
    by rewrite (IH (λ m' r', k (String a m') r') Hm Hr Hk).
Qed.

Lemma greedy_plus_whole {A} p (k : string → string → option A) m r x :
  m ≠ "" → all_chars p m = true →
  match r with EmptyString => true | String a _ => negb (p a) end = true →
  k m r = Some x →
  PyRe.greedy_plus p k (m +:+ r) = Some x.
Proof.
  intros Hne Hm Hr Hk. destruct m as [|a m]; [done|].
  simpl in Hm. apply andb_true_iff in Hm as [Ha Hm].
  rewrite str_app_cons. unfold PyRe.greedy_plus. rewrite Ha.
  by apply (greedy_star_whole p (λ m' r', k (String a m') r')).
Qed.

Lemma at_end_cases r :
  PyRe.at_end r = true → r = "" ∨ r = String PyStr.newline "".
Proof.
  destruct r as [|a [|b r]]; simpl; [by left| |done].
  intros ->%Ascii.eqb_eq. by right.
Qed.

(** What a match captures: the digits in front of the period, and the
    text after the whitespace that follows it, up to the end of the value
    (or to a newline that ends it). *)
Lemma line_item_re_sound s n d :
  PyRe.line_item_re s = Some (n, d) →
  ∃ spaces tail,
    s = n +:+ "." +:+ spaces +:+ d +:+ tail
    ∧ n ≠ "" ∧ all_chars PyStr.is_digit n = true
    ∧ all_chars PyStr.is_space spaces = true
    ∧ d ≠ "" ∧ all_chars PyStr.is_dot d = true
    ∧ (tail = "" ∨ tail = String PyStr.newline "").
Proof.
  unfold PyRe.line_item_re.
  intros (g1 & r1 & -> & Hne1 & Hd1 & H)%greedy_plus_sound.
  destruct r1 as [|c r2]; [done|].
  destruct (Ascii.eqb_spec c ".") as [->|Hc].
  2:{ destruct c as [[] [] [] [] [] [] [] []]; done. }
  apply greedy_star_sound in H as (sp & r3 & -> & Hsp & H).
  apply greedy_plus_sound in H as (g2 & r4 & -> & Hne2 & Hd2 & H).
  destruct (PyRe.at_end r4) eqn:He; [|done]. injection H as <- <-.
  exists sp, r4. rewrite str_app_cons, str_app_nil.
  repeat split; try done. by apply at_end_cases.
Qed.

(** A value of the shape digits, period, whitespace, description matches,
    and captures the digits and the description. *)
Lemma line_item_re_shape digits spaces rest :
  digits ≠ "" → all_chars PyStr.is_digit digits = true →
  all_chars PyStr.is_space spaces = true →
  description_like rest = true →
  PyRe.line_item_re (digits +:+ "." +:+ spaces +:+ rest) = Some (digits, rest).
Proof.
  intros Hne Hd Hs Hr. unfold PyRe.line_item_re.
  apply greedy_plus_whole; [done..|].
  rewrite str_app_cons, str_app_nil.
  destruct rest as [|a rest]; [done|].
  apply andb_true_iff in Hr as [Ha Hr].
  apply greedy_star_whole; [done..|].
  rewrite <- (str_app_nil_r (String a rest)) at 1.
  by apply greedy_plus_whole.
Qed.

Lemma try_extract_none fields :
  Forall (λ g, PyRe.line_item_re (value g) = None) fields →
  try_extract_line_item fields = None.
Proof. induction 1 as [|g fields Hg _ IH]; simpl; [done|]. by rewrite Hg. Qed.

Lemma try_extract_first pre f post n d :
  Forall (λ g, PyRe.line_item_re (value g) = None) pre →
  PyRe.line_item_re (value f) = Some (n, d) →
  try_extract_line_item (pre ++ f :: post)
  = Some {| lineNumber := n; description := d |}.
Proof.
  induction 1 as [|g pre Hg _ IH]; intros Hf; simpl.
  - by rewrite Hf.
  - rewrite Hg. by apply IH.
Qed.

Lemma make_row_line_item grid columns r row :
  make_row grid columns r = Some row →
  lineItem row = try_extract_line_item (fields row) ∧ rowIndex row = r.
Proof.
  unfold make_row. destruct (mapM _ _) as [fs|]; simpl; [|done].
  by intros [= <-].
Qed.

(** C6. The line item of a row comes from the first field, in column
    order, whose raw value matches the pattern: its line number is the
    captured digits and its description the captured remainder. A row has
    at most one line item, the one of its fields, and none when no field
    matches. *)
Theorem line_item_extraction (pre post : list FieldValue) (f : FieldValue)
    (n d : string) :
  Forall (λ g, PyRe.line_item_re (value g) = None) pre →
  PyRe.line_item_re (value f) = Some (n, d) →
  try_extract_line_item (pre ++ f :: post)
  = Some {| lineNumber := n; description := d |}
  ∧ (∃ spaces tail,
       value f = n +:+ "." +:+ spaces +:+ d +:+ tail
       ∧ n ≠ "" ∧ all_chars PyStr.is_digit n = true
       ∧ all_chars PyStr.is_space spaces = true
       ∧ d ≠ "" ∧ all_chars PyStr.is_dot d = true
       ∧ (tail = "" ∨ tail = String PyStr.newline ""))
  ∧ (∀ fields, Forall (λ g, PyRe.line_item_re (value g) = None) fields →
               try_extract_line_item fields = None)
  ∧ (∀ grid columns r row,
       make_row grid columns r = Some row →
       lineItem row = try_extract_line_item (fields row))
  ∧ (∀ digits spaces rest,
       digits ≠ "" → all_chars PyStr.is_digit digits = true →
       all_chars PyStr.is_space spaces = true →
       description_like rest = true →
       PyRe.line_item_re (digits +:+ "." +:+ spaces +:+ rest)
       = Some (digits, rest))
  ∧ try_extract_line_item [raw_field 0 "12. Wages, salaries, tips"]
    = Some {| lineNumber := "12"; description := "Wages, salaries, tips" |}.
Proof.
  intros Hpre Hf. split; [by apply try_extract_first|].
  split; [by apply line_item_re_sound|].
  split; [apply try_extract_none|].
  split; [intros grid columns r row H; by apply (make_row_line_item _ _ _ _ H)|].
  split; [apply line_item_re_shape|reflexivity].
Qed.

Lemma line_item_extraction_witness :
  try_extract_line_item
    ([raw_field 0 "Line"; raw_field 1 ""] ++ raw_field 2 "7. Capital gain"
       :: [raw_field 3 "8. Other income"])
  = Some {| lineNumber := "7"; description := "Capital gain" |}.
Proof.
  apply (line_item_extraction [raw_field 0 "Line"; raw_field 1 ""]
           [raw_field 3 "8. Other income"] (raw_field 2 "7. Capital gain")
           "7" "Capital gain").
  - repeat constructor.
  - reflexivity.
Defined.

End LineItems.

(** ** The cell grid *)

Section CellGrid.
Import Builder Props.

Lemma empty_grid_dims table :
  has_dims (empty_grid table)
    (Z.to_nat (row_count table)) (Z.to_nat (column_count table)).
Proof.
  unfold has_dims, empty_grid. split.
  - apply length_replicate.
  - apply Forall_replicate, length_replicate.
Qed.

Lemma set_cell_dims grid r c v grid' rc cc :
  set_cell grid r c v = Some grid' → has_dims grid rc cc → has_dims grid' rc cc.
Proof.
  unfold set_cell, has_dims. intros H [Hlen Hrows].
  destruct (py_index (length grid) r) as [i|]; simpl in H; [|done].
  destruct (grid !! i) as [row|] eqn:Hrow; simpl in H; [|done].
  destruct (py_index (length row) c) as [j|]; simpl in H; [|done].
  injection H as <-. split.
  - by rewrite length_insert.
  - apply Forall_insert; [done|]. rewrite length_insert.
    by apply (Forall_lookup_1 _ _ _ _ Hrows Hrow).
Qed.

Lemma fill_grid_dims cells grid grid' rc cc :
  fill_grid cells grid = Some grid' → has_dims grid rc cc → has_dims grid' rc cc.
Proof.
  revert grid. induction cells as [|cell cells IH]; intros grid; simpl.
  - by intros [= <-].
  - destruct (set_cell grid _ _ _) as [g|] eqn:E; simpl; [|done].
    intros H Hd. apply (IH g H). by apply (set_cell_dims _ _ _ _ _ _ _ E).
Qed.

(** The grid keeps the dimensions the table declares. *)
Lemma build_grid_dims table grid :
  build_grid table = Some grid →
  has_dims grid (Z.to_nat (row_count table)) (Z.to_nat (column_count table)).
Proof.
  intros H. apply (fill_grid_dims _ _ _ _ _ H), empty_grid_dims.
Qed.

Lemma get_cell_row grid r row c :
  grid !! r = Some row → get_cell grid r c = row !! c.
Proof. unfold get_cell. by intros ->. Qed.

End CellGrid.

(** ** The metadata scan *)

Section MetadataScan.
Import Builder Props.

Lemma scan_columns_row grid r row n k md :
  grid !! r = Some row → k + n = length row →
  scan_columns grid r (seq k n) md = Some (foldl scan_cell md (drop k row)).
Proof.
  intros Hrow. revert k md. induction n as [|n IH]; intros k md Hk; simpl.
  - by rewrite drop_ge by lia.
  - rewrite (get_cell_row _ _ _ _ Hrow).
    destruct (lookup_lt_is_Some_2 row k) as [cell Hcell]; [lia|].
    rewrite Hcell. simpl. rewrite IH by lia.
    by rewrite (drop_S _ _ _ Hcell).
Qed.

Lemma scan_rows_grid grid cc n k md :
  Forall (λ row, length row = cc) grid → k + n ≤ length grid →
  scan_rows grid (seq k n) (seq 0 cc) md
  = Some (foldl scan_cell md (concat (take n (drop k grid)))).
Proof.
  intros Hrows. revert k md. induction n as [|n IH]; intros k md Hk; simpl.
  - done.
  - destruct (lookup_lt_is_Some_2 grid k) as [row Hrow]; [lia|].
    rewrite (scan_columns_row grid k row cc 0 md Hrow)
      by (by rewrite (Forall_lookup_1 _ _ _ _ Hrows Hrow)).
    simpl. rewrite IH by lia.
    rewrite (drop_S _ _ _ Hrow). simpl. by rewrite foldl_app.
Qed.

(** The three nested loops on a table visit the cells of the first three
    rows of its grid in row-major order. *)
Lemma scan_table_cells table md :
  scan_table table md
  = match build_grid table with
    | Some _ => Some (foldl scan_cell md (table_cells table))
    | None => None
    end.
Proof.
  unfold scan_table, table_cells.
  destruct (build_grid table) as [grid|] eqn:E; simpl; [|done].
  destruct (build_grid_dims _ _ E) as [Hlen Hrows].
  unfold range.
  rewrite (scan_rows_grid grid _ _ 0 md Hrows) by (simpl; lia).
  rewrite drop_0. do 3 f_equal.
  replace (Z.to_nat (Z.min 3 (row_count table)))
    with (Nat.min 3 (length grid)) by lia.
  destruct (decide (3 ≤ length grid)).
  - by rewrite Nat.min_l.
  - rewrite Nat.min_r by lia. by rewrite !take_ge by lia.
Qed.

Lemma scan_tables_cells ts md md' :
  scan_tables ts md = Some md' →
  md' = foldl scan_cell md (concat (table_cells <$> ts)).
Proof.
  revert md. induction ts as [|t ts IH]; intros md; simpl.
  - by intros [= <-].
  - rewrite scan_table_cells.
    destruct (build_grid t); simpl; [|done].
    intros H%IH. by rewrite foldl_app.
Qed.

(** A call of [extract_metadata] that returns has folded the cell rule
    over the scanned cells of the document. *)
Lemma extract_metadata_cells result md md' :
  extract_metadata result md = Some md' →
  md' = foldl scan_cell md (result_cells result).
Proof. apply scan_tables_cells. Qed.

(** *** The rule on one cell *)

Lemma name_like_nonempty cell : name_like cell = true → PyStr.truthy cell = true.
Proof.
  unfold name_like. destruct cell; [|done].
  by rewrite andb_false_r.
Qed.

Lemma scan_cell_stable md cell k v :
  md !! k = Some v → scan_cell md cell !! k = Some v.
Proof.
  intros H. unfold scan_cell. cbv zeta.
  destruct (PyStr.truthy cell); simpl; [|done].
  assert ((if name_like cell && bool_decide (md !! "taxpayerName" = None)
           then <["taxpayerName":=cell]> md else md) !! k = Some v) as H1.
  { destruct (name_like cell); simpl; [|done].
    case_bool_decide as Hn; [|done].
    rewrite lookup_insert_ne; [done|]. intros <-. congruence. }
  set (md1 := if name_like cell && _ then _ else _) in *. clearbody md1.
  destruct (search_ssn cell) as [ssn|]; [|done].
  case_bool_decide as Hi; [|done].
  rewrite lookup_insert_ne; [done|]. intros <-. congruence.
Qed.

Lemma scan_cell_name md cell :
  md !! "taxpayerName" = None →
  scan_cell md cell !! "taxpayerName"
  = if name_like cell then Some cell else None.
Proof.
  intros H. unfold scan_cell. cbv zeta.
  destruct (PyStr.truthy cell) eqn:Ht; simpl.
  - rewrite (bool_decide_eq_true_2 _ H), andb_true_r.
    destruct (search_ssn cell) as [ssn|].
    + case_bool_decide.
      * rewrite lookup_insert_ne by done.
        destruct (name_like cell); [by rewrite lookup_insert_eq|done].
      * destruct (name_like cell); [by rewrite lookup_insert_eq|done].
    + destruct (name_like cell); [by rewrite lookup_insert_eq|done].
  - destruct (name_like cell) eqn:Hn; [|done].
    apply name_like_nonempty in Hn. congruence.
Qed.

Lemma scan_cell_id md cell :
  md !! "taxpayerId" = None →
  scan_cell md cell !! "taxpayerId" = search_ssn cell.
Proof.
  intros H. unfold scan_cell. cbv zeta.
  destruct (PyStr.truthy cell) eqn:Ht; simpl.
  - assert ((if name_like cell && bool_decide (md !! "taxpayerName" = None)
             then <["taxpayerName":=cell]> md else md) !! "taxpayerId" = None) as H1.
    { destruct (_ && _); [by rewrite lookup_insert_ne|done]. }
    set (md1 := if name_like cell && _ then _ else _) in *. clearbody md1.
    destruct (search_ssn cell) as [ssn|]; [|done].
    rewrite (bool_decide_eq_true_2 _ H1). by rewrite lookup_insert_eq.
  - destruct cell; [by rewrite H|done].
Qed.

Lemma scan_cell_other md cell k :
  k ≠ "taxpayerName" → k ≠ "taxpayerId" → scan_cell md cell !! k = md !! k.
Proof.
  intros Hn Hi. unfold scan_cell. cbv zeta.
  destruct (PyStr.truthy cell); simpl; [|done].
  assert ((if name_like cell && bool_decide (md !! "taxpayerName" = None)
           then <["taxpayerName":=cell]> md else md) !! k = md !! k) as H1.
  { destruct (_ && _); [by rewrite lookup_insert_ne|done]. }
  set (md1 := if name_like cell && _ then _ else _) in *. clearbody md1.
  destruct (search_ssn cell) as [ssn|]; [|done].
  case_bool_decide; [|done]. by rewrite lookup_insert_ne.
Qed.

(** *** The rule folded over the scanned cells *)

Lemma scan_cells_stable cells md k v :
  md !! k = Some v → foldl scan_cell md cells !! k = Some v.
Proof.
  revert md. induction cells as [|cell cells IH]; intros md H; simpl; [done|].
  by apply IH, scan_cell_stable.
Qed.

Lemma scan_cells_name cells md :
  md !! "taxpayerName" = None →
  foldl scan_cell md cells !! "taxpayerName" = head (List.filter name_like cells).
Proof.
  revert md. induction cells as [|cell cells IH]; intros md H; simpl; [done|].
  pose proof (scan_cell_name md cell H) as Hc.
  destruct (name_like cell); simpl.
  - by apply scan_cells_stable.
  - by apply IH.
Qed.

Lemma scan_cells_id cells md :
  md !! "taxpayerId" = None →
  foldl scan_cell md cells !! "taxpayerId" = head (omap search_ssn cells).
Proof.
  revert md. induction cells as [|cell cells IH]; intros md H; simpl; [done|].
  pose proof (scan_cell_id md cell H) as Hc.
  destruct (search_ssn cell) as [ssn|]; simpl.
  - by apply scan_cells_stable.
  - by apply IH.
Qed.

Lemma scan_cells_other cells md k :
  k ≠ "taxpayerName" → k ≠ "taxpayerId" →
  foldl scan_cell md cells !! k = md !! k.
Proof.
  intros Hn Hi. revert md.
  induction cells as [|cell cells IH]; intros md; simpl; [done|].
  by rewrite IH, scan_cell_other.
Qed.

End MetadataScan.

(** ** Structuring the tables of a document *)

Section Structuring.
Import Builder Props.

Lemma structure_loop ts tables_out :
  foldl structure_step tables_out ts = tables_out ++ omap structure_table ts.
Proof.
  revert tables_out. induction ts as [|t ts IH]; intros tables_out; simpl.
  - by rewrite app_nil_r.
  - rewrite IH. unfold structure_step.
    destruct (structure_table t); [by rewrite <- app_assoc|done].
Qed.

(** The tables of the output are those the [try] body returns on, in
    the order of the document. *)
Lemma generate_hybrid_structure_omap result form_type :
  generate_hybrid_structure result form_type
  = omap structure_table (default [] (result_tables result)).
Proof. unfold generate_hybrid_structure. by rewrite structure_loop. Qed.

Lemma omap_length_le {A B} (f : A → option B) l : length (omap f l) ≤ length l.
Proof.
  induction l as [|a l IH]; csimpl; [done|]. destruct (f a); csimpl; lia.
Qed.

End Structuring.

(** ** The report aggregator *)

Section Aggregator.
Import Builder Props.

(** One iteration either skips the document, or raises in
    [extract_metadata], or adds the document to the report. *)
Lemma process_pdf_cases layout report pdf_info :
  process_pdf layout report pdf_info
  = match processed layout pdf_info with
    | None => Some report
    | Some result =>
        match extract_metadata result (metadata report) with
        | None => None
        | Some metadata' =>
            Some {| pageCount := pageCount report
                                 + length (default [] (result_pages result));
                    tableCount := tableCount report
                                  + length (default [] (result_tables result));
                    metadata := metadata';
                    tables := tables report
                              ++ generate_hybrid_structure result
                                   (default "Unknown" (form_type pdf_info)) |}
        end
    end.
Proof.
  unfold process_pdf, processed.
  destruct (run_azure_layout _) as [result|]; [|done].
  by destruct (extract_metadata _ _).
Qed.

Lemma process_loop_app layout pre post report :
  process_loop layout (pre ++ post) report
  = process_loop layout pre report ≫= process_loop layout post.
Proof.
  revert report. induction pre as [|p pre IH]; intros report; simpl; [done|].
  destruct (process_pdf layout report p) as [r|]; simpl; [apply IH|done].
Qed.

Lemma process_loop_metadata layout split_pdfs report report' :
  process_loop layout split_pdfs report = Some report' →
  metadata report'
  = foldl scan_cell (metadata report) (run_cells layout split_pdfs).
Proof.
  revert report. unfold run_cells.
  induction split_pdfs as [|p ps IH]; intros report; simpl.
  - by intros [= <-].
  - rewrite process_pdf_cases.
    destruct (processed layout p) as [result|]; simpl.
    + destruct (extract_metadata _ _) as [md'|] eqn:E; simpl; [|done].
      intros H%IH. rewrite H. simpl.
      by rewrite foldl_app, (extract_metadata_cells _ _ _ E).
    + apply IH.
Qed.

Lemma process_loop_counts layout split_pdfs report report' :
  process_loop layout split_pdfs report = Some report' →
  tableCount report' = tableCount report + tables_returned layout split_pdfs
  ∧ length (tables report')
    ≤ length (tables report) + tables_returned layout split_pdfs.
Proof.
  revert report. unfold tables_returned.
  induction split_pdfs as [|p ps IH]; intros report; csimpl.
  - intros [= <-]. lia.
  - rewrite process_pdf_cases.
    destruct (processed layout p) as [result|]; csimpl.
    + destruct (extract_metadata _ _) as [md'|]; csimpl; [|done].
      intros [H1 H2]%IH. csimpl in *.
      rewrite length_app, generate_hybrid_structure_omap in H2.
      pose proof (omap_length_le structure_table (default [] (result_tables result))).
      lia.
    + intros [H1 H2]%IH. lia.
Qed.

End Aggregator.

(** ** The pattern of a taxpayer id *)

Section TaxpayerId.
Import Builder Props.
Local Arguments Ascii.eqb : simpl never.

Lemma match_seq_prefix pat s m :
  PyRe.match_seq pat s = Some m →
  ∃ post, s = m +:+ post ∧ String.length m = length pat.
Proof.
  revert s m. induction pat as [|p pat IH]; intros s m; simpl.
  - intros [= <-]. by exists s.
  - destruct s as [|a s]; [done|]. destruct (p a); [|done].
    destruct (PyRe.match_seq pat s) as [m'|] eqn:E; simpl; [|done].
    intros [= <-]. destruct (IH _ _ E) as (post & -> & Hlen).
    exists post. simpl. by rewrite Hlen.
Qed.

(** [re.search] returns the match that starts first. *)
Lemma search_seq_first pat s m :
  PyRe.search_seq pat s = Some m →
  ∃ pre post,
    s = pre +:+ m +:+ post
    ∧ PyRe.match_seq pat (m +:+ post) = Some m
    ∧ String.length m = length pat
    ∧ ∀ pre1 pre2, pre = pre1 +:+ pre2 → pre2 ≠ "" →
                   PyRe.match_seq pat (pre2 +:+ m +:+ post) = None.
Proof.
  induction s as [|a s IH].
  - simpl. destruct (PyRe.match_seq pat "") as [m'|] eqn:E; [|done].
    intros [= ->]. destruct (match_seq_prefix _ _ _ E) as (post & Hs & Hlen).
    exists "", post. rewrite str_app_nil, <- Hs.
    repeat split; try done.
    intros [|b pre1] [|c pre2]; rewrite ?str_app_nil, ?str_app_cons; done.
  - cbn [PyRe.search_seq].
    destruct (PyRe.match_seq pat (String a s)) as [m'|] eqn:E.
    + intros [= ->]. destruct (match_seq_prefix _ _ _ E) as (post & Hs & Hlen).
      exists "", post. rewrite str_app_nil, <- Hs.
      repeat split; try done.
      intros [|b pre1] [|c pre2]; rewrite ?str_app_nil, ?str_app_cons; done.
    + intros (pre & post & -> & Hm & Hlen & Hfirst)%IH.
      exists (String a pre), post. rewrite str_app_cons.
      repeat split; try done.
      intros [|b pre1] pre2; rewrite ?str_app_nil, ?str_app_cons.
      * intros <- _. by rewrite str_app_cons.
      * intros [= _ ->] Hne. by apply (Hfirst pre1).
Qed.

End TaxpayerId.

(** ** The run *)

Section Run.
Import Builder Props.

(** C3. Over a whole run, taxpayerName is the first scanned cell that
    holds "&" and is longer than 10 characters, and taxpayerId is the
    first match of the id pattern in the first scanned cell that has one,
    in document, table, row, column order of rows 0 to 2; what a prefix
    of the run has recorded is what the run ends with, and on every cell
    a recorded key stays as it is and a free key takes the match of the
    cell. *)
Theorem metadata_first_match_wins (layout : string → option AnalyzeResult)
    (pre post : list PdfInfo) (rep1 rep2 : Report) :
  process_split_pdfs layout pre = Some rep1 →
  process_split_pdfs layout (pre ++ post) = Some rep2 →
  metadata rep2 !! "taxpayerName"
  = head (List.filter name_like (run_cells layout (pre ++ post)))
  ∧ metadata rep2 !! "taxpayerId"
    = head (omap search_ssn (run_cells layout (pre ++ post)))
  ∧ (∀ k v, metadata rep1 !! k = Some v → metadata rep2 !! k = Some v)
  ∧ (∀ md cell k v, md !! k = Some v → scan_cell md cell !! k = Some v)
  ∧ (∀ md cell, md !! "taxpayerName" = None →
                scan_cell md cell !! "taxpayerName"
                = if name_like cell then Some cell else None)
  ∧ (∀ md cell, md !! "taxpayerId" = None →
                scan_cell md cell !! "taxpayerId" = search_ssn cell)
  ∧ (∀ cell ssn, search_ssn cell = Some ssn →
       ∃ before after,
         cell = before +:+ ssn +:+ after
         ∧ PyRe.match_seq PyRe.ssn_pattern (ssn +:+ after) = Some ssn
         ∧ String.length ssn = 11
         ∧ ∀ b1 b2, before = b1 +:+ b2 → b2 ≠ "" →
                    PyRe.match_seq PyRe.ssn_pattern (b2 +:+ ssn +:+ after) = None).
Proof.
  unfold process_split_pdfs. intros H1 H2.
  pose proof (process_loop_metadata _ _ _ _ H2) as Hmd. simpl in Hmd.
  split; [rewrite Hmd; by apply scan_cells_name|].
  split; [rewrite Hmd; by apply scan_cells_id|].
  split.
  { intros k v Hk. rewrite process_loop_app, H1 in H2. simpl in H2.
    rewrite (process_loop_metadata _ _ _ _ H2). by apply scan_cells_stable. }
  split; [apply scan_cell_stable|].
  split; [apply scan_cell_name|].
  split; [apply scan_cell_id|].
  intros cell ssn H. by apply (search_seq_first PyRe.ssn_pattern).
Qed.

Lemma metadata_first_match_wins_witness :
  metadata (report_of sample_layout [federal_doc; lost_doc; state_doc])
    !! "taxpayerName" = Some "John & Jane Doe"
  ∧ metadata (report_of sample_layout [federal_doc; lost_doc; state_doc])
      !! "taxpayerId" = Some "123-45-6789".
Proof.
  destruct (metadata_first_match_wins sample_layout
              [federal_doc] [lost_doc; state_doc]
              (report_of sample_layout [federal_doc])
              (report_of sample_layout [federal_doc; lost_doc; state_doc]))
    as (Hname & Hid & _).
  - vm_compute. reflexivity.
  - vm_compute. reflexivity.
  - split; [rewrite Hname | rewrite Hid]; vm_compute; reflexivity.
Defined.

(** C10. The table count of a report is the number of tables the layout
    service returned for the documents that were processed, and it is at
    least the number of table records in the report. *)
Theorem table_count_bounds_tables (layout : string → option AnalyzeResult)
    (split_pdfs : list PdfInfo) (report : Report) :
  process_split_pdfs layout split_pdfs = Some report →
  tableCount report = tables_returned layout split_pdfs
  ∧ length (tables report) ≤ tableCount report.
Proof.
  unfold process_split_pdfs.
  intros [H1 H2]%process_loop_counts. simpl in *. lia.
Qed.

Lemma table_count_bounds_tables_witness :
  tableCount (report_of sample_layout [federal_doc; lost_doc; state_doc]) = 4
  ∧ length (tables (report_of sample_layout [federal_doc; lost_doc; state_doc])) = 3.
Proof.
  destruct (table_count_bounds_tables sample_layout
              [federal_doc; lost_doc; state_doc]
              (report_of sample_layout [federal_doc; lost_doc; state_doc]))
    as [Hcount Hle].
  - vm_compute. reflexivity.
  - split; [rewrite Hcount|]; reflexivity.
Defined.

(** A cell outside of the declared grid makes [extract_metadata] raise:
    the run ends there, before the tables of the document are structured. *)
Example cell_outside_grid_ends_run :
  build_grid overflowing_table = None
  ∧ extract_metadata overflowing_result ∅ = None
  ∧ process_split_pdfs sample_layout [federal_doc; overflowing_doc] = None.
Proof. repeat split; vm_compute; reflexivity. Qed.

End Run.


(** * Further properties *)

(** ** The grouper, run by run *)

Section Runs.
Import Splitter Props Notions.

Lemma add_to_group_run run q :
  run ≠ [] → add_to_group (group_of_run run) q = group_of_run (run ++ [q]).
Proof.
  destruct run as [|p run]; [done|]. intros _.
  unfold add_to_group, group_of_run. simpl. by rewrite !fmap_app.
Qed.

Lemma is_run_snoc run q p :
  head run = Some p → is_run run →
  should_group_with_previous (page_form_type p) (page_form_type q) = true →
  is_run (run ++ [q]).
Proof.
  destruct run as [|p' run]; [done|]. simpl. intros [= ->] Hrun Hq.
  apply Forall_app. split; [done|]. by constructor.
Qed.

Lemma group_step_some groups g q :
  group_step (groups, Some g) q
  = if should_group_with_previous (form_type g) (page_form_type q)
    then (groups, Some (add_to_group g q))
    else (groups ++ [g], Some (start_group q)).
Proof. reflexivity. Qed.

(** The loop, started inside a run, closes runs that satisfy the rule and
    separates them where the rule refuses a page. *)
Lemma group_loop_runs l groups cur_run p :
  head cur_run = Some p → is_run cur_run →
  ∃ runs last_run first_run,
    cur_run ++ l = concat (runs ++ [last_run])
    ∧ foldl group_step (groups, Some (group_of_run cur_run)) l
      = (groups ++ (group_of_run <$> runs), Some (group_of_run last_run))
    ∧ Forall is_run (runs ++ [last_run])
    ∧ separated (runs ++ [last_run])
    ∧ head (runs ++ [last_run]) = Some first_run
    ∧ head first_run = Some p.
Proof.
  revert groups cur_run p. induction l as [|q l IH]; intros groups cur_run p Hp Hrun.
  - exists [], cur_run, cur_run. simpl. rewrite !app_nil_r.
    repeat split; try done. by constructor.
  - assert (cur_run ≠ []) as Hne by (by destruct cur_run).
    cbn [foldl]. rewrite group_step_some.
    replace (form_type (group_of_run cur_run)) with (page_form_type p)
      by (unfold group_of_run; simpl; by rewrite Hp).
    destruct (should_group_with_previous (page_form_type p) (page_form_type q)) eqn:E.
    + rewrite (add_to_group_run cur_run q Hne).
      destruct (IH groups (cur_run ++ [q]) p)
        as (runs & last & first & H1 & H2 & H3 & H4 & H5 & H6).
      { by destruct cur_run. }
      { by apply (is_run_snoc _ _ p). }
      exists runs, last, first. rewrite <- H1, <- app_assoc. done.
    + change (start_group q) with (group_of_run [q]).
      destruct (IH (groups ++ [group_of_run cur_run]) [q] q)
        as (runs & last & first & H1 & H2 & H3 & H4 & H5 & H6);
        [done| by constructor |].
      exists (cur_run :: runs), last, cur_run.
      rewrite H2. simpl. rewrite <- H1, <- app_assoc. simpl.
      repeat split; try done.
      * by constructor.
      * destruct (runs ++ [last]) as [|r rest] eqn:Er; [done|].
        simpl in H5. injection H5 as ->. split; [|done].
        unfold breaks_after. by rewrite Hp, H6.
Qed.

Lemma group_runs_exist (l : list PageRecord) :
  ∃ runs,
    l = concat runs
    ∧ group_pages_intelligently l = group_of_run <$> runs
    ∧ Forall is_run runs
    ∧ separated runs.
Proof.
  destruct l as [|p l].
  - exists []. repeat split; done.
  - destruct (group_loop_runs l [] [p] p) as (runs & last & first & H1 & H2 & H3 & H4 & _);
      [done| by constructor |].
    exists (runs ++ [last]). unfold group_pages_intelligently.
    change (foldl group_step ([], None) (p :: l))
      with (foldl group_step ([], Some (group_of_run [p])) l).
    rewrite H2. simpl. rewrite fmap_app. done.
Qed.

Lemma group_indices_concat (l : list PageRecord) :
  concat (page_indices <$> group_pages_intelligently l) = page_index <$> l.
Proof.
  destruct (group_runs_exist l) as (runs & Hl & Hg & _).
  rewrite Hg, Hl. clear. induction runs as [|r runs IH]; [done|].
  csimpl. by rewrite fmap_app, IH.
Qed.

(** The groups are the maximal runs of the adjacency rule: the pages
    split into consecutive runs, one group per run in order, every page of
    a run is accepted against the label of its first page, and the first
    page of every next run is refused against the label of the run before. *)
Theorem grouping_is_by_runs (l : list PageRecord) :
  ∃ runs,
    l = concat runs
    ∧ group_pages_intelligently l = group_of_run <$> runs
    ∧ Forall is_run runs
    ∧ separated runs.
Proof.
  destruct (group_runs_exist l) as (runs & Hl & Hg & Hruns & Hsep).
  exists runs. by rewrite Hg.
Qed.

(** No group is empty, a group has as many page indices as page numbers,
    and the page indices of the groups, in order, are those of the input. *)
Theorem groups_are_well_formed (l : list PageRecord) :
  Forall (λ g, pages g ≠ [] ∧ length (pages g) = length (page_indices g))
    (group_pages_intelligently l)
  ∧ concat (page_indices <$> group_pages_intelligently l) = page_index <$> l
  ∧ form_type <$> head (group_pages_intelligently l) = page_form_type <$> head l.
Proof.
  destruct (group_runs_exist l) as (runs & Hl & Hg & Hruns & _).
  rewrite Hg. split; [|split].
  - apply Forall_fmap. eapply Forall_impl; [exact Hruns|].
    intros [|p run] Hrun; [done|]. simpl. split; [done|].
    by rewrite !length_fmap.
  - rewrite <- Hg. apply group_indices_concat.
  - rewrite Hl. destruct runs as [|[|q r] runs]; simpl in *.
    + done.
    + by apply Forall_cons_1 in Hruns as [? _].
    + done.
Qed.

End Runs.

(** ** The split files *)

Section SplitFiles.
Import Splitter Props Notions.
Local Arguments Ascii.eqb : simpl never.

(** *** File names *)

Lemma string_of_uint_digits d :
  all_chars PyStr.is_digit (NilEmpty.string_of_uint d) = true.
Proof. induction d; simpl; by rewrite ?IHd. Qed.

Lemma of_nat_digits n : all_chars PyStr.is_digit (PyStr.of_nat n) = true.
Proof. apply string_of_uint_digits. Qed.

(** Two texts that start with digits followed by "_" and are equal start
    with the same digits. *)
Lemma digits_prefix_inj d1 d2 r1 r2 :
  all_chars PyStr.is_digit d1 = true → all_chars PyStr.is_digit d2 = true →
  d1 +:+ "_" +:+ r1 = d2 +:+ "_" +:+ r2 → d1 = d2.
Proof.
  revert d2. induction d1 as [|a d1 IH]; intros [|b d2] H1 H2 H;
    rewrite ?str_app_nil, ?str_app_cons in H; simpl in *.
  - done.
  - injection H as <- _. by apply andb_true_iff in H2 as [? _].
  - injection H as -> _. by apply andb_true_iff in H1 as [? _].
  - injection H as -> H. apply andb_true_iff in H1 as [_ H1].
    apply andb_true_iff in H2 as [_ H2]. f_equal. by apply IH.
Qed.

Lemma split_file_name_inj i j g g' :
  split_file_name i g = split_file_name j g' → i = j.
Proof.
  unfold split_file_name. intros H.
  apply digits_prefix_inj in H; [by apply of_nat_inj|apply of_nat_digits..].
Qed.

(** *** Names that can be opened *)

Lemma has_char_app p s t : has_char p (s +:+ t) = has_char p s || has_char p t.
Proof.
  unfold has_char. induction s as [|a s IH]; [done|].
  rewrite str_app_cons. simpl. by rewrite IH, orb_assoc.
Qed.

Lemma has_char_digits s :
  all_chars PyStr.is_digit s = true → has_char breaks_name s = false.
Proof.
  unfold has_char. induction s as [|a s IH]; simpl; [done|].
  intros [Ha Hs]%andb_true_iff. rewrite (IH Hs), orb_false_r.
  unfold breaks_name. rewrite !bool_decide_eq_false_2; [done|..].
  - intros ->. done.
  - intros ->. done.
Qed.

Lemma has_char_replace p c d s :
  p c = false → p d = false →
  has_char p (PyStr.replace_char c d s) = has_char p s.
Proof.
  intros Hc Hd. unfold has_char. induction s as [|a s IH]; simpl; [done|].
  rewrite IH. destruct (Ascii.eqb_spec a c) as [->|?]; [by rewrite Hc, Hd|done].
Qed.

Lemma has_char_remove p c s :
  p c = false → has_char p (PyStr.remove_char c s) = has_char p s.
Proof.
  intros Hc. unfold has_char. induction s as [|a s IH]; simpl; [done|].
  destruct (Ascii.eqb_spec a c) as [->|?]; simpl; rewrite IH; [by rewrite Hc|done].
Qed.

(** Putting a form type into a file name neither adds nor removes a
    character a file name cannot hold. *)
Lemma form_name_breaks_name form_type :
  has_char breaks_name (form_name form_type) = has_char breaks_name form_type.
Proof.
  unfold form_name. by rewrite !has_char_remove, has_char_replace.
Qed.

Lemma opens_for_writing_has_char name :
  opens_for_writing name = negb (has_char breaks_name name).
Proof.
  unfold opens_for_writing, has_char.
  induction name as [|a name IH]; [done|].
  cbn [PyStr.contains PyStr.startswith PyRe.search_class].
  rewrite !andb_true_r, !negb_orb, <- IH. unfold breaks_name.
  rewrite !eqb_bool_decide, negb_orb.
  rewrite (bool_decide_ext ("/"%char = a) (a = "/"%char)) by done.
  rewrite (bool_decide_ext ("000"%char = a) (a = "000"%char)) by done.
  destruct (bool_decide (a = "/"%char)), (bool_decide (a = "000"%char)); simpl;
    by rewrite ?andb_false_r.
Qed.

(** The file of a group can be opened exactly when the form type of the
    group holds neither "/" nor NUL, whatever the counter. *)
Lemma opens_split_file_name k g :
  opens_for_writing (split_file_name k g) = names_a_file g.
Proof.
  rewrite opens_for_writing_has_char. unfold split_file_name, names_a_file.
  rewrite !has_char_app, form_name_breaks_name.
  rewrite (has_char_digits _ (of_nat_digits k)). simpl.
  by rewrite orb_false_r.
Qed.

(** *** The loop over the groups *)

(** The loop writes one file and one entry per group, numbered from the
    counter on, as long as the page indices are pages of the source and the
    files can be opened. *)
Lemma write_groups_all od n groups k files acc :
  forallb (can_be_written n) groups = true →
  write_groups od n k groups files acc
  = (Some (acc ++ imap (λ i g, split_entry od (k + i) g) groups),
     files ++ imap (λ i g, (split_file_name (k + i) g, page_indices g)) groups).
Proof.
  revert k files acc. induction groups as [|g groups IH]; intros k files acc H;
    cbn [write_groups].
  - simpl. by rewrite !app_nil_r.
  - simpl in H. apply andb_true_iff in H as [Hg H].
    fold (split_file_name k g). rewrite opens_split_file_name.
    unfold can_be_written, in_source in Hg. rewrite Hg, (IH _ _ _ H).
    rewrite <- !app_assoc. simpl. rewrite Nat.add_0_r.
    do 2 f_equal.
    + f_equal. f_equal. apply imap_ext. intros i g' _. simpl. f_equal. lia.
    + f_equal. apply imap_ext. intros i g' _. simpl. do 2 f_equal. lia.
Qed.

(** At the first group with a page index outside of the source, or with
    a file that cannot be opened, the loop raises, with the files of the
    groups before it written. *)
Lemma write_groups_raises od n before g after k files acc :
  forallb (can_be_written n) before = true → can_be_written n g = false →
  write_groups od n k (before ++ g :: after) files acc
  = (None,
     files ++ imap (λ i g, (split_file_name (k + i) g, page_indices g)) before).
Proof.
  revert k files acc. induction before as [|b before IH]; intros k files acc H Hg;
    cbn [write_groups app].
  - fold (split_file_name k g). rewrite opens_split_file_name.
    unfold can_be_written, in_source in Hg. rewrite Hg. simpl. by rewrite app_nil_r.
  - simpl in H. apply andb_true_iff in H as [Hb H].
    fold (split_file_name k b). rewrite opens_split_file_name.
    unfold can_be_written, in_source in Hb. rewrite Hb, (IH _ _ _ H Hg).
    rewrite <- !app_assoc. simpl. rewrite Nat.add_0_r. do 3 f_equal.
    apply imap_ext. intros i g' _. simpl. do 2 f_equal. lia.
Qed.





Lemma write_groups_files od n groups k files acc :
  ∃ m, (write_groups od n k groups files acc).2
       = files ++ imap (λ i g, (split_file_name (k + i) g, page_indices g))
                    (take m groups).
Proof.
  destruct (forallb (can_be_written n) groups) eqn:E.
  - exists (length groups). by rewrite (write_groups_all _ _ _ _ _ _ E), firstn_all.
  - assert (∃ before g after, groups = before ++ g :: after
              ∧ forallb (can_be_written n) before = true
              ∧ can_be_written n g = false)
      as (before & g & after & -> & Hb & Hg).
    { clear -E. induction groups as [|g groups IH]; [done|]. simpl in E.
      destruct (can_be_written n g) eqn:Eg.
      - destruct (IH E) as (before & g' & after & -> & Hb & Hg).
        exists (g :: before), g', after. simpl. by rewrite Eg, Hb.
      - by exists [], g, groups. }
    exists (length before).
    rewrite (write_groups_raises _ _ _ _ _ _ _ _ Hb Hg). simpl.
    by rewrite take_app_length.
Qed.

(** Whatever the groups and however the call ends, no two files of the
    output directory have the same name: the counter in front of the name
    tells them apart, so no file overwrites another. *)
Theorem split_file_names_are_distinct (od : string) (w : Collaborators)
    (groups : list DocumentGroup) (fs : FileSystem) :
  NoDup (from_option (fmap fst) [] (split_dir (create_split_pdfs od w groups fs).2)).
Proof.
  unfold create_split_pdfs. destruct (reader_pages w) as [n|]; simpl; [|constructor].
  destruct (write_groups_files od n groups 1 [] []) as [m Hm].
  destruct (write_groups od n 1 groups [] []) as [r files]. simpl in *. subst files.
  apply NoDup_alt. intros i j name Hi Hj.
  rewrite list_lookup_fmap, list_lookup_imap in Hi, Hj.
  destruct (take m groups !! i) as [gi|]; [|done].
  destruct (take m groups !! j) as [gj|]; [|done].
  simpl in *. injection Hi as Hi. injection Hj as Hj. subst name.
  apply split_file_name_inj in Hj. lia.
Qed.

(** The form type in a file name holds no space, parenthesis or hyphen. *)
Theorem form_name_is_sanitised (form_type : string) :
  has_char (λ c, bool_decide (c = " "%char) || bool_decide (c = "("%char)
                 || bool_decide (c = ")"%char) || bool_decide (c = "-"%char))
    (form_name form_type) = false.
Proof.
  unfold form_name. rewrite !remove_char_without.
  induction form_type as [|a s IH]; [done|]. cbn [PyStr.replace_char].
  set (c := if Ascii.eqb a " " then "_"%char else a).
  assert (c ≠ " "%char) as Hc.
  { subst c. by destruct (Ascii.eqb_spec a " "). }
  clearbody c. cbn [without].
  case_bool_decide as H1; [apply IH|]. cbn [without].
  case_bool_decide as H2; [apply IH|]. cbn [without].
  case_bool_decide as H3; [apply IH|].
  unfold has_char in *. cbn [PyRe.search_class]. rewrite IH.
  by rewrite !bool_decide_eq_false_2.
Qed.

End SplitFiles.

(** ** From the scan to the split files *)

Section ScanToFiles.
Import Splitter Props Notions.

Ltac split_on_each_keyword :=
  repeat match goal with
    | |- context [PyStr.contains ?k ?t] => destruct (PyStr.contains k t); simpl
    | H : context [PyStr.contains ?k ?t] |- _ => destruct (PyStr.contains k t); simpl in H
    end.

(** The page ordinal is used by the generic state rule and by no other:
    a text on which that rule does not fire gets the same label on every
    page. *)
Theorem label_depends_on_text_only (text_lower : string) (i j : nat) :
  generic_rule_applies text_lower = false →
  identify_form_type text_lower i = identify_form_type text_lower j.
Proof.
  unfold generic_rule_applies, identify_form_type.
  split_on_each_keyword; done.
Qed.

Lemma label_depends_on_text_only_witness :
  identify_form_type "ohio state return" 0 = identify_form_type "ohio state return" 7.
Proof. apply label_depends_on_text_only. reflexivity. Defined.

Lemma ocr_pages_readable texts k acc :
  ocr_pages k (read_as <$> texts) acc
  = Some (acc ++ imap (λ i text, page_record (k + i) text) texts).
Proof.
  revert k acc. induction texts as [|text texts IH]; intros k acc; simpl.
  - by rewrite app_nil_r.
  - rewrite IH, <- app_assoc. simpl. rewrite Nat.add_0_r.
    do 3 f_equal. apply imap_ext. intros i t _. simpl. f_equal. lia.
Qed.

(** When every page is read, the pass returns one record per page, in
    page order: the page at position i has number i + 1, index i, the
    length of its text, and the label of its lower-cased text. *)
Theorem detect_records_every_page (w : Collaborators) (texts : list string) :
  convert_from_path w = Some (read_as <$> texts) →
  detect_form_types_with_ocr w = imap page_record texts.
Proof.
  intros H. unfold detect_form_types_with_ocr.
  by rewrite H, ocr_pages_readable.
Qed.

Lemma detect_records_every_page_witness :
  page_form_type <$> detect_form_types_with_ocr readable_scan
  = ["Federal"; "Unknown"; "State - Ohio (IT-1040)"].
Proof.
  rewrite (detect_records_every_page readable_scan
             ["Form 1040 U.S. Individual"; ""; "Ohio IT-1040"]); reflexivity.
Defined.

Lemma imap_page_index texts k :
  page_index <$> imap (λ i text, page_record (k + i) text) texts
  = seq k (length texts).
Proof.
  revert k. induction texts as [|t texts IH]; intros k; simpl; [done|].
  rewrite Nat.add_0_r. f_equal. rewrite <- IH. f_equal.
  apply imap_ext. intros i t' _. simpl. f_equal. lia.
Qed.

Lemma group_indices_in_concat (groups : list DocumentGroup) n :
  Forall (λ i, i < n) (concat (page_indices <$> groups)) →
  forallb (in_source n) groups = true.
Proof.
  induction groups as [|g groups IH]; simpl; [done|].
  intros [Hg H]%Forall_app. rewrite (IH H), andb_true_r.
  unfold in_source. apply forallb_forall. intros i Hi.
  apply Nat.ltb_lt. rewrite Forall_forall in Hg. apply Hg. by apply list_elem_of_In.
Qed.

(** No label of the form identifier holds a character a file name cannot
    hold. *)
Lemma identify_label_names_a_file t i :
  has_char breaks_name (identify_form_type t i) = false.
Proof.
  unfold identify_form_type.
  repeat match goal with
    | |- context [PyStr.contains ?k ?t] => destruct (PyStr.contains k t); simpl
    end; try reflexivity.
  all: unfold generic_state_label.
  all: rewrite !has_char_app, (has_char_digits _ (of_nat_digits (i + 1))).
  all: reflexivity.
Qed.

(** What holds of the label of every page holds of the form type of
    every group. *)
Lemma group_labels_from_pages (P : string → Prop) (l : list PageRecord) :
  Forall (λ p, P (page_form_type p)) l →
  Forall (λ g, P (form_type g)) (group_pages_intelligently l).
Proof.
  intros Hl. destruct (group_runs_exist l) as (runs & -> & -> & Hruns & _).
  apply Forall_fmap. apply Forall_forall. intros run Hrun. simpl.
  rewrite Forall_forall in Hruns. specialize (Hruns run Hrun).
  destruct run as [|p run]; [done|]. simpl.
  rewrite Forall_forall in Hl. apply Hl.
  apply list_elem_of_In, in_concat. exists (p :: run).
  split; [by apply list_elem_of_In|by left].
Qed.

Lemma forallb_can_be_written n (groups : list DocumentGroup) :
  forallb (in_source n) groups = true →
  Forall (λ g, has_char breaks_name (form_type g) = false) groups →
  forallb (can_be_written n) groups = true.
Proof.
  induction groups as [|g groups IH]; simpl; [done|].
  intros [Hg H]%andb_true_iff [Hn Hns]%Forall_cons_1.
  unfold can_be_written at 1, names_a_file. by rewrite Hg, Hn, IH.
Qed.

Lemma imap_split_pages od (groups : list DocumentGroup) :
  split_pages <$> imap (λ i g, split_entry od (S i) g) groups = pages <$> groups.
Proof.
  rewrite fmap_imap. by rewrite (imap_ext _ (const pages)), imap_const.
Qed.

(** When the scan has pages, every page is read and the source holds as
    many pages as the scan, the entries returned cover the pages 1 to N in
    order, each once, and the files written hold the page indices 0 to
    N - 1 in order, each once, one file per entry. *)
Theorem split_pdf_covers_every_page (od : string) (w : Collaborators)
    (fs : FileSystem) (texts : list string) (n : nat) :
  convert_from_path w = Some (read_as <$> texts) → texts ≠ [] →
  reader_pages w = Some n → length texts ≤ n →
  concat (split_pages <$> (split_pdf od w fs).1) = seq 1 (length texts)
  ∧ ∃ files,
      split_dir (split_pdf od w fs).2 = Some files
      ∧ concat (snd <$> files) = seq 0 (length texts)
      ∧ length files = length (split_pdf od w fs).1.
Proof.
  intros Hc Hne Hn Hlen. unfold split_pdf.
  pose proof (detect_form_types_numbering w) as Hnum. simpl in Hnum.
  assert (detect_form_types_with_ocr w = imap page_record texts) as Hdet.
  { unfold detect_form_types_with_ocr. by rewrite Hc, ocr_pages_readable. }
  rewrite Hdet in *.
  rewrite length_imap in Hnum.
  destruct (imap page_record texts) as [|r recs] eqn:Er.
  { destruct texts; [done|]. done. }
  rewrite <- Er in *. clear r recs Er.
  set (recs := imap page_record texts) in *.
  pose proof (group_indices_concat recs) as Hidx.
  assert (page_index <$> recs = seq 0 (length texts)) as Hseq.
  { apply (imap_page_index texts 0). }
  rewrite Hseq in Hidx.
  assert (forallb (in_source n) (group_pages_intelligently recs) = true) as Hsrc.
  { apply group_indices_in_concat. rewrite Hidx.
    apply Forall_forall. intros i Hi%list_elem_of_In%in_seq. lia. }
  assert (forallb (can_be_written n) (group_pages_intelligently recs) = true)
    as Hwr.
  { apply forallb_can_be_written; [done|].
    apply (group_labels_from_pages (λ label, has_char breaks_name label = false)).
    apply Forall_forall. intros p Hp. unfold recs in Hp.
    apply list_elem_of_lookup in Hp as [i Hp].
    rewrite list_lookup_imap in Hp.
    destruct (texts !! i) as [text|]; [|done]. injection Hp as <-.
    apply identify_label_names_a_file. }
  unfold create_split_pdfs. rewrite Hn.
  rewrite (write_groups_all od n _ 1 [] [] Hwr). simpl.
  split.
  - by rewrite imap_split_pages, group_pages_concat.
  - eexists. split; [done|]. split.
    + rewrite fmap_imap.
      by rewrite (imap_ext _ (const page_indices)), imap_const.
    + by rewrite !length_imap.
Qed.

Lemma split_pdf_covers_every_page_witness :
  concat (split_pages <$> (split_pdf "split_pdfs" readable_scan earlier_run).1)
  = [1; 2; 3]
  ∧ ∃ files,
      split_dir (split_pdf "split_pdfs" readable_scan earlier_run).2 = Some files
      ∧ concat (snd <$> files) = [0; 1; 2]
      ∧ length files = length (split_pdf "split_pdfs" readable_scan earlier_run).1.
Proof.
  apply (split_pdf_covers_every_page "split_pdfs" readable_scan earlier_run
           ["Form 1040 U.S. Individual"; ""; "Ohio IT-1040"] 3).
  - reflexivity.
  - discriminate.
  - reflexivity.
  - simpl. lia.
Defined.

End ScanToFiles.

(** ** Trimming *)

Section Trimming.
Import Props Notions.

Lemma lstrip_head s :
  match PyStr.lstrip s with
  | EmptyString => True
  | String a _ => PyStr.is_space a = false
  end.
Proof.
  induction s as [|a s IH]; simpl; [done|].
  destruct (PyStr.is_space a) eqn:E; [done|]. by simpl.
Qed.

Lemma lstrip_fixed s :
  match s with EmptyString => True | String a _ => PyStr.is_space a = false end →
  PyStr.lstrip s = s.
Proof. destruct s as [|a s]; simpl; [done|]. by intros ->. Qed.

Lemma rstrip_rstrip s : PyStr.rstrip (PyStr.rstrip s) = PyStr.rstrip s.
Proof.
  induction s as [|a s IH]; simpl; [done|].
  destruct (PyStr.rstrip s) as [|b r] eqn:E.
  - destruct (PyStr.is_space a) eqn:Ea; simpl; [done|]. by rewrite Ea.
  - cbn [PyStr.rstrip]. cbn [PyStr.rstrip] in IH. by rewrite IH.
Qed.

Lemma rstrip_head s :
  match s with EmptyString => True | String a _ => PyStr.is_space a = false end →
  match PyStr.rstrip s with
  | EmptyString => True
  | String a _ => PyStr.is_space a = false
  end.
Proof.
  destruct s as [|a s]; simpl; [done|]. intros Ha.
  destruct (PyStr.rstrip s); by rewrite ?Ha.
Qed.

(** Trimming twice is trimming once. *)
Lemma strip_strip s : PyStr.strip (PyStr.strip s) = PyStr.strip s.
Proof.
  unfold PyStr.strip.
  rewrite (lstrip_fixed (PyStr.rstrip (PyStr.lstrip s))).
  - apply rstrip_rstrip.
  - apply rstrip_head, lstrip_head.
Qed.

End Trimming.

(** ** Building the grid *)

Section GridContents.
Import Builder Props Notions.

Lemma py_index_lt n i k : py_index n i = Some k → k < n.
Proof.
  unfold py_index.
  destruct (Z.leb_spec 0 i).
  - destruct (Z.ltb_spec i (Z.of_nat n)); [|done]. intros [= <-]. lia.
  - destruct (Z.leb_spec (- Z.of_nat n) i); [|done]. intros [= <-]. lia.
Qed.

Lemma cell_position_some table cell i j :
  cell_position table cell = Some (i, j) →
  py_index (Z.to_nat (row_count table)) (row_index cell) = Some i
  ∧ py_index (Z.to_nat (column_count table)) (column_index cell) = Some j.
Proof.
  unfold cell_position.
  destruct (py_index _ (row_index cell)); simpl; [|done].
  destruct (py_index _ (column_index cell)); simpl; [|done].
  by intros [= -> ->].
Qed.

Lemma cell_position_none table cell :
  cell_position table cell = None →
  py_index (Z.to_nat (row_count table)) (row_index cell) = None
  ∨ py_index (Z.to_nat (column_count table)) (column_index cell) = None.
Proof.
  unfold cell_position.
  destruct (py_index _ (row_index cell)); simpl; [|by left].
  destruct (py_index _ (column_index cell)); simpl; [done|by right].
Qed.

(** An assignment with both indices inside of the grid changes the cell at
    the position the indices stand for, and no other. *)
Lemma set_cell_inside grid r c v rc cc i j :
  has_dims grid rc cc → py_index rc r = Some i → py_index cc c = Some j →
  ∃ grid', set_cell grid r c v = Some grid'
           ∧ has_dims grid' rc cc
           ∧ ∀ r' c', get_cell grid' r' c'
                      = if decide ((r', c') = (i, j)) then Some v
                        else get_cell grid r' c'.
Proof.
  intros Hd Ei Ej. pose proof Hd as [Hlen Hrows].
  pose proof (py_index_lt _ _ _ Ei) as Hi.
  pose proof (py_index_lt _ _ _ Ej) as Hj.
  destruct (lookup_lt_is_Some_2 grid i) as [row Hrow]; [lia|].
  pose proof (Forall_lookup_1 _ _ _ _ Hrows Hrow) as Hrowlen. simpl in Hrowlen.
  assert (set_cell grid r c v = Some (<[i := <[j := v]> row]> grid)) as Hset.
  { unfold set_cell. rewrite Hlen, Ei. simpl. rewrite Hrow. simpl.
    rewrite Hrowlen, Ej. done. }
  eexists. split; [exact Hset|]. split.
  { by apply (set_cell_dims _ _ _ _ _ _ _ Hset). }
  intros r' c'. unfold get_cell.
  destruct (decide ((r', c') = (i, j))) as [[= -> ->]|Hne].
  - rewrite list_lookup_insert_eq by lia. simpl.
    apply list_lookup_insert_eq. lia.
  - destruct (decide (r' = i)) as [->|Hr].
    + rewrite list_lookup_insert_eq by lia. rewrite Hrow. simpl.
      apply list_lookup_insert_ne. congruence.
    + by rewrite list_lookup_insert_ne.
Qed.

(** An assignment with an index outside of the grid raises. *)
Lemma set_cell_outside grid r c v rc cc :
  has_dims grid rc cc → py_index rc r = None ∨ py_index cc c = None →
  set_cell grid r c v = None.
Proof.
  intros [Hlen Hrows] H. unfold set_cell. rewrite Hlen.
  destruct (py_index rc r) as [i|] eqn:Ei; simpl; [|done].
  destruct H as [?|Ej]; [done|].
  destruct (grid !! i) as [row|] eqn:Hrow; simpl; [|done].
  by rewrite (Forall_lookup_1 _ _ _ _ Hrows Hrow), Ej.
Qed.

Lemma fill_grid_spec table cells grid :
  has_dims grid (Z.to_nat (row_count table)) (Z.to_nat (column_count table)) →
  match fill_grid cells grid with
  | Some grid' =>
      Forall (λ cell, is_Some (cell_position table cell)) cells
      ∧ ∀ r c, get_cell grid' r c
               = match last (omap (λ cell,
                                     if bool_decide (cell_position table cell = Some (r, c))
                                     then Some (cell_text cell) else None) cells) with
                 | Some v => Some v
                 | None => get_cell grid r c
                 end
  | None => Exists (λ cell, cell_position table cell = None) cells
  end.
Proof.
  revert grid. induction cells as [|cell cells IH]; intros grid Hd.
  - simpl. split; [constructor|done].
  - cbn [fill_grid].
    destruct (cell_position table cell) as [[i j]|] eqn:Ep.
    + destruct (cell_position_some _ _ _ _ Ep) as [Ei Ej].
      destruct (set_cell_inside grid (row_index cell) (column_index cell)
                  (PyStr.strip (default "" (content cell))) _ _ i j Hd Ei Ej)
        as (grid' & -> & Hd' & Hget).
      simpl. specialize (IH grid' Hd').
      destruct (fill_grid cells grid') as [grid''|].
      * destruct IH as [Hall Hcells]. split.
        { constructor; [by rewrite Ep|done]. }
        intros r c. rewrite Hcells, Hget. csimpl. rewrite Ep.
        destruct (decide ((r, c) = (i, j))) as [[= -> ->]|Hne].
        -- rewrite bool_decide_eq_true_2 by done. rewrite last_cons.
           by destruct (last _).
        -- rewrite bool_decide_eq_false_2 by congruence. done.
      * by right.
    + rewrite (set_cell_outside grid _ _ _ _ _ Hd (cell_position_none _ _ Ep)).
      simpl. by left.
Qed.

Lemma build_grid_none_iff (table : DocumentTable) :
  build_grid table = None ↔ breaks_grid table.
Proof.
  unfold build_grid, breaks_grid.
  pose proof (fill_grid_spec table (cells table) _ (empty_grid_dims table)) as H.
  destruct (fill_grid (cells table) (empty_grid table)) as [grid|].
  - destruct H as [Hall _]. split; [done|].
    intros Hex. apply Exists_exists in Hex as (cell & Hin & Hnone).
    rewrite Forall_forall in Hall. destruct (Hall cell Hin) as [? ?]. congruence.
  - done.
Qed.

(** The grid cannot be built exactly when a cell of the table has a row
    or column index outside of the declared rows and columns (an index
    below zero counts from the end). *)
Theorem build_grid_raises_iff (table : DocumentTable) :
  build_grid table = None ↔ breaks_grid table.
Proof.
  split; intros H.
  - by apply build_grid_none_iff.
  - by apply build_grid_none_iff.
Qed.

Lemma empty_grid_cell table r c :
  r < Z.to_nat (row_count table) → c < Z.to_nat (column_count table) →
  get_cell (empty_grid table) r c = Some "".
Proof.
  intros Hr Hc. unfold get_cell, empty_grid.
  rewrite lookup_replicate_2 by done. simpl. by rewrite lookup_replicate_2.
Qed.

Lemma built_cell (table : DocumentTable) (grid : Grid) (r c : nat) :
  build_grid table = Some grid →
  r < Z.to_nat (row_count table) → c < Z.to_nat (column_count table) →
  get_cell grid r c = Some (default "" (last (written_at table r c))).
Proof.
  unfold build_grid, written_at. intros Hb Hr Hc.
  pose proof (fill_grid_spec table (cells table) _ (empty_grid_dims table)) as H.
  rewrite Hb in H. destruct H as [_ H]. rewrite H.
  destruct (last _); [done|]. simpl. by apply empty_grid_cell.
Qed.

(** In a grid that was built, the cell at a position inside of the
    declared rows and columns holds the trimmed content of the last cell of
    the table written to that position, and the empty text when no cell is
    written there. *)
Theorem build_grid_last_write (table : DocumentTable) (grid : Grid) (r c : nat) :
  build_grid table = Some grid →
  r < Z.to_nat (row_count table) → c < Z.to_nat (column_count table) →
  get_cell grid r c = Some (default "" (last (written_at table r c))).
Proof.
  intros Hb Hr Hc. rewrite (built_cell table grid r c Hb Hr Hc). done.
Qed.

Lemma build_grid_last_write_witness :
  build_grid headed_table
  = Some [["Line"; "Amount"; ""]; ["12. Wages"; "$(1,234.50)"; "note"]]
  ∧ get_cell [["Line"; "Amount"; ""]; ["12. Wages"; "$(1,234.50)"; "note"]] 1 2
    = Some (default "" (last (written_at headed_table 1 2)))
  ∧ written_at headed_table 1 2 = ["x"; "note"].
Proof.
  split; [reflexivity|]. split; [|reflexivity].
  apply (build_grid_last_write headed_table); [reflexivity | simpl; lia | simpl; lia].
Defined.

Lemma built_cell_trimmed (table : DocumentTable) (grid : Grid)
    (r c : nat) (cell : string) :
  build_grid table = Some grid → get_cell grid r c = Some cell →
  is_trimmed cell.
Proof.
  intros Hb Hcell.
  destruct (build_grid_dims _ _ Hb) as [Hlen Hrows].
  assert (r < Z.to_nat (row_count table) ∧ c < Z.to_nat (column_count table))
    as [Hr Hc].
  { unfold get_cell in Hcell. destruct (grid !! r) as [row|] eqn:Hrow; [|done].
    simpl in Hcell. split.
    - rewrite <- Hlen. by apply (lookup_lt_Some _ _ _ Hrow).
    - rewrite <- (Forall_lookup_1 _ _ _ _ Hrows Hrow).
      by apply (lookup_lt_Some _ _ _ Hcell). }
  rewrite (built_cell _ _ _ _ Hb Hr Hc) in Hcell.
  injection Hcell as <-. unfold is_trimmed.
  destruct (last (written_at table r c)) as [v|] eqn:El; simpl; [|done].
  apply last_Some_elem_of in El. unfold written_at in El.
  apply list_elem_of_omap in El as (x & _ & Hx).
  case_bool_decide; [|done]. injection Hx as <-. apply strip_strip.
Qed.

(** Every cell of a grid that was built is trimmed. *)
Theorem grid_cells_are_trimmed (table : DocumentTable) (grid : Grid)
    (r c : nat) (cell : string) :
  build_grid table = Some grid → get_cell grid r c = Some cell →
  is_trimmed cell.
Proof.
  intros Hb Hcell. unfold is_trimmed.
  by apply (built_cell_trimmed table grid r c cell Hb Hcell).
Qed.

Lemma grid_cells_are_trimmed_witness : is_trimmed "Amount".
Proof.
  apply (grid_cells_are_trimmed headed_table
           [["Line"; "Amount"; ""]; ["12. Wages"; "$(1,234.50)"; "note"]] 0 1);
    reflexivity.
Defined.

End GridContents.

(** ** The structured table *)

Section StructuredTable.
Import Builder Props Notions.

Lemma mapM_all_Some {A B} (f : A → option B) (g : A → B) (l : list A) :
  Forall (λ x, f x = Some (g x)) l → mapM f l = Some (g <$> l).
Proof.
  intros H. apply mapM_Some_2. induction H; csimpl; by constructor.
Qed.

Lemma zip_seq_fmap {B} (f : nat → B) (l : list nat) :
  zip l (f <$> l) = (λ c, (c, f c)) <$> l.
Proof. induction l as [|c l IH]; [done|]. csimpl. by rewrite IH. Qed.

Lemma get_cell_inside grid rc cc r c :
  has_dims grid rc cc → r < rc → c < cc →
  get_cell grid r c = Some (text_at grid r c).
Proof.
  intros [Hlen Hrows] Hr Hc. unfold text_at, get_cell.
  destruct (lookup_lt_is_Some_2 grid r) as [row Hrow]; [lia|].
  rewrite Hrow. simpl.
  destruct (lookup_lt_is_Some_2 row c) as [cell Hcell].
  { rewrite (Forall_lookup_1 _ _ _ _ Hrows Hrow). lia. }
  by rewrite Hcell.
Qed.

Lemma make_column_inside grid rc cc c :
  has_dims grid rc cc → 0 < rc → c < cc →
  make_column grid c = Some (column_of grid c).
Proof.
  intros Hd Hr Hc. unfold make_column.
  by rewrite (get_cell_inside grid rc cc 0 c Hd Hr Hc).
Qed.

Lemma make_row_inside grid rc cc r :
  has_dims grid rc cc → r < rc →
  make_row grid (column_of grid <$> seq 0 cc) r = Some (row_of grid cc r).
Proof.
  intros Hd Hr. unfold make_row, enumerate.
  rewrite length_fmap, length_seq, zip_seq_fmap.
  rewrite (mapM_all_Some _ (λ ccol, field_of grid r ccol.1)).
  - simpl. unfold row_of. by rewrite <- list_fmap_compose.
  - apply Forall_fmap, Forall_forall. intros c Hc%list_elem_of_In%in_seq.
    simpl. by rewrite (get_cell_inside grid rc cc r c Hd Hr) by lia.
Qed.

(** What the body of the [try] does on a table whose grid was built *)
Lemma structure_table_built table grid :
  build_grid table = Some grid →
  structure_table table
  = if bool_decide (Z.to_nat (row_count table) = 0)
       && bool_decide (0 < Z.to_nat (column_count table))
    then None
    else Some {| formType := detect_form_type grid;
                 rowCount := row_count table;
                 columnCount := column_count table;
                 columns := column_of grid <$> seq 0 (Z.to_nat (column_count table));
                 data := row_of grid (Z.to_nat (column_count table))
                           <$> seq 1 (Z.to_nat (row_count table) - 1) |}.
Proof.
  intros Hb. pose proof (build_grid_dims _ _ Hb) as Hd.
  unfold structure_table. rewrite Hb. simpl. unfold range, range_from_1.
  set (rc := Z.to_nat (row_count table)) in *.
  set (cc := Z.to_nat (column_count table)) in *.
  destruct (decide (rc = 0)) as [Hrc|Hrc].
  - rewrite (bool_decide_eq_true_2 _ Hrc). rewrite Hrc. simpl.
    destruct cc as [|cc'].
    + rewrite bool_decide_eq_false_2 by lia. done.
    + rewrite bool_decide_eq_true_2 by lia. simpl.
      destruct Hd as [Hlen _]. destruct grid; [|simpl in Hlen; lia].
      done.
  - rewrite (bool_decide_eq_false_2 _ Hrc). simpl.
    rewrite (mapM_all_Some _ (column_of grid)).
    2:{ apply Forall_forall. intros c Hc%list_elem_of_In%in_seq.
        apply (make_column_inside grid rc cc); [done|lia..]. }
    simpl.
    rewrite (mapM_all_Some _ (row_of grid cc)).
    2:{ apply Forall_forall. intros r Hr%list_elem_of_In%in_seq.
        apply (make_row_inside grid rc cc); [done|lia]. }
    done.
Qed.

(** The body of the [try] raises on a table exactly when a cell lies
    outside of the declared grid, or when the table declares columns and no
    row, so that there is no header row to name the columns from. *)
Theorem structure_table_raises_iff (table : DocumentTable) :
  structure_table table = None
  ↔ breaks_grid table ∨ (row_count table ≤ 0 ∧ 0 < column_count table)%Z.
Proof.
  destruct (build_grid table) as [grid|] eqn:Hb.
  - rewrite (structure_table_built _ _ Hb).
    assert (¬ breaks_grid table) as Hnb.
    { rewrite <- build_grid_none_iff. congruence. }
    destruct (decide (Z.to_nat (row_count table) = 0)) as [Hr|Hr];
      destruct (decide (0 < Z.to_nat (column_count table))) as [Hc|Hc].
    + rewrite !bool_decide_eq_true_2 by done. simpl.
      split; [intros _; right; lia|done].
    + rewrite (bool_decide_eq_false_2 _ Hc), andb_false_r.
      split; [done|]. intros [?|?]; [done|lia].
    + rewrite (bool_decide_eq_false_2 _ Hr). simpl.
      split; [done|]. intros [?|?]; [done|lia].
    + rewrite (bool_decide_eq_false_2 _ Hr). simpl.
      split; [done|]. intros [?|?]; [done|lia].
  - split; [intros _; left; by apply build_grid_none_iff|].
    intros _. unfold structure_table. by rewrite Hb.
Qed.

(** A table that is structured gives one column per declared column and
    one row per declared row after the header row; column c is named by the
    header cell, or "Column_c" when that cell is empty, and typed from the
    grid; the field of row r in column c holds the cell of the grid and its
    cleaning under the type of the column; the form type is the one found
    in the grid. *)
Theorem structure_table_contents (table : DocumentTable) (grid : Grid)
    (table_data : TableRecord) :
  build_grid table = Some grid → structure_table table = Some table_data →
  table_data
  = {| formType := detect_form_type grid;
       rowCount := row_count table;
       columnCount := column_count table;
       columns := column_of grid <$> seq 0 (Z.to_nat (column_count table));
       data := row_of grid (Z.to_nat (column_count table))
                 <$> seq 1 (Z.to_nat (row_count table) - 1) |}.
Proof.
  intros Hb. rewrite (structure_table_built _ _ Hb).
  destruct (_ && _); [done|]. by intros [= <-].
Qed.

Lemma structure_table_contents_witness :
  (λ td, columnName <$> columns td) <$> structure_table headed_table
  = Some ["Line"; "Amount"; "Column_2"]
  ∧ (λ td, dataType <$> columns td) <$> structure_table headed_table
    = Some ["numeric"; "numeric"; "text"]
  ∧ (λ td, (λ row, cleanedValue <$> fields row) <$> data td)
      <$> structure_table headed_table
    = Some [["12.Wages"; "-1234.50"; "note"]].
Proof.
  pose proof (structure_table_contents headed_table
                [["Line"; "Amount"; ""]; ["12. Wages"; "$(1,234.50)"; "note"]]
                (default (Build_TableRecord "" 0 0 [] []) (structure_table headed_table))
                eq_refl eq_refl) as H.
  assert (structure_table headed_table
          = Some (default (Build_TableRecord "" 0 0 [] []) (structure_table headed_table)))
    as -> by reflexivity.
  rewrite H. repeat split; vm_compute; reflexivity.
Defined.

End StructuredTable.

(** ** The two classifiers *)

Section Classifiers.
Import Splitter Builder Props Notions.
Local Arguments Ascii.eqb : simpl never.

Lemma startswith_iff p s :
  PyStr.startswith p s = true ↔ ∃ post, s = p +:+ post.
Proof.
  revert s. induction p as [|a p IH]; intros s.
  - split; [|done]. intros _. by exists s.
  - destruct s as [|b s]; simpl.
    + split; [done|]. by intros [post ?].
    + rewrite andb_true_iff, Ascii.eqb_eq, IH. split.
      * intros [-> [post ->]]. by exists post.
      * intros [post H]. rewrite str_app_cons in H. injection H as -> ->. eauto.
Qed.

(** The substring test holds exactly on the texts that hold the needle. *)
Lemma contains_iff needle hay :
  PyStr.contains needle hay = true ↔ ∃ pre post, hay = pre +:+ needle +:+ post.
Proof.
  induction hay as [|a hay IH]; cbn [PyStr.contains]; rewrite orb_true_iff, startswith_iff.
  - split.
    + intros [[post H]|?]; [|done]. exists "", post. by rewrite str_app_nil.
    + intros ([|b pre] & post & H); rewrite ?str_app_nil, ?str_app_cons in H; [|done].
      left. eauto.
  - rewrite IH. split.
    + intros [[post H]|(pre & post & ->)].
      * exists "", post. by rewrite str_app_nil.
      * exists (String a pre), post. by rewrite str_app_cons.
    + intros ([|b pre] & post & H); rewrite ?str_app_nil, ?str_app_cons in H.
      * left. eauto.
      * injection H as -> ->. right. eauto.
Qed.

Lemma str_app_assoc (s1 s2 s3 : string) : (s1 +:+ s2) +:+ s3 = s1 +:+ s2 +:+ s3.
Proof. induction s1 as [|a s1 IH]; [done|]. by rewrite !str_app_cons, IH. Qed.

Lemma contains_part front needle hay :
  PyStr.contains (front +:+ needle) hay = true → PyStr.contains needle hay = true.
Proof.
  rewrite !contains_iff. intros (pre & post & ->).
  exists (pre +:+ front), post. by rewrite !str_app_assoc.
Qed.

Lemma take_min_three {A} (l : list A) : take (3 `min` length l) l = take 3 l.
Proof.
  destruct (decide (3 ≤ length l)).
  - by rewrite Nat.min_l.
  - rewrite Nat.min_r by lia. by rewrite !take_ge by lia.
Qed.

Lemma detect_in_cell_labels cell label :
  detect_in_cell cell = Some label →
  label ∈ ["Federal (1040)"; "State - Ohio"; "State - North Carolina";
           "State - California"; "Unknown"].
Proof.
  unfold detect_in_cell.
  repeat match goal with
    | |- context [PyStr.contains ?k ?t] => destruct (PyStr.contains k t); simpl
    end; intros [= <-]; repeat constructor.
Qed.

Lemma detect_in_rows_labels rows label :
  detect_in_rows rows = Some label →
  label ∈ ["Federal (1040)"; "State - Ohio"; "State - North Carolina";
           "State - California"; "Unknown"].
Proof.
  induction rows as [|row rows IH]; simpl; [done|].
  destruct (detect_in_row row) as [l|] eqn:E; [|done].
  intros [= <-]. clear IH. induction row as [|cell row IHr]; simpl in E; [done|].
  destruct (detect_in_cell cell) as [l'|] eqn:Ec; [|by apply IHr].
  injection E as <-. by apply (detect_in_cell_labels cell).
Qed.

(** The form type of a table is read from the first three rows of its
    grid and from no other, and it is one of five labels. *)
Theorem detect_form_type_reads_three_rows (grid : Grid) :
  detect_form_type grid = detect_form_type (take 3 grid)
  ∧ detect_form_type grid
    ∈ ["Federal (1040)"; "State - Ohio"; "State - North Carolina";
       "State - California"; "Unknown"].
Proof.
  unfold detect_form_type. rewrite !take_min_three, take_take. simpl. split; [done|].
  destruct (detect_in_rows (take 3 grid)) as [label|] eqn:E; simpl.
  - by apply detect_in_rows_labels in E.
  - repeat constructor.
Qed.

(** The two classifiers disagree on an Ohio IT-1040 form: for a
    lower-case text that names Ohio and IT-1040 and is no federal or North
    Carolina text, the page classifier says Ohio, and the table classifier,
    on a grid that starts with a cell of this text, says federal. *)
Theorem classifiers_disagree_on_ohio_it_1040 (text : string) (page_num : nat)
    (row : list string) (rows : Grid) :
  PyStr.lower text = text →
  PyStr.contains "ohio" text = true → PyStr.contains "it-1040" text = true →
  PyStr.contains "form 1040" text = false →
  PyStr.contains "comparison" text = false →
  PyStr.contains "north carolina" text = false →
  identify_form_type text page_num = "State - Ohio (IT-1040)"
  ∧ detect_form_type ((text :: row) :: rows) = "Federal (1040)".
Proof.
  intros Hlow Hohio Hit Hform Hcmp Hnc.
  assert (PyStr.contains "1040" text = true) as H1040.
  { by apply (contains_part "it-"). }
  split.
  - unfold identify_form_type.
    by rewrite Hform, H1040, Hcmp, Hnc, Hohio, Hit.
  - unfold detect_form_type. rewrite take_min_three. simpl.
    unfold detect_in_cell. by rewrite Hlow, H1040.
Qed.

Lemma classifiers_disagree_on_ohio_it_1040_witness :
  identify_form_type "ohio it-1040 individual income tax return" 2
  = "State - Ohio (IT-1040)"
  ∧ detect_form_type
      (["ohio it-1040 individual income tax return"; "2023"] :: [["line"; "amount"]])
    = "Federal (1040)".
Proof.
  apply (classifiers_disagree_on_ohio_it_1040
           "ohio it-1040 individual income tax return" 2 ["2023"] [["line"; "amount"]]);
    reflexivity.
Defined.

End Classifiers.

(** ** The run, document by document *)

Section Documents.
Import Builder Props Notions.

Lemma scan_tables_raises_iff ts md :
  scan_tables ts md = None ↔ Exists breaks_grid ts.
Proof.
  revert md. induction ts as [|t ts IH]; intros md; simpl.
  - split; [done|]. by intros ?%Exists_nil.
  - rewrite scan_table_cells, Exists_cons, <- build_grid_none_iff.
    destruct (build_grid t) as [grid|]; simpl.
    + rewrite IH. split; [by right|]. by intros [?|?].
    + split; [by left|done].
Qed.

(** [extract_metadata] raises on a document exactly when one of its
    tables breaks its grid, whatever was recorded before. *)
Lemma extract_metadata_raises_iff result md :
  extract_metadata result md = None ↔ Exists breaks_grid (tables_of result).
Proof. apply scan_tables_raises_iff. Qed.

Lemma process_loop_raises_iff layout split_pdfs report :
  process_loop layout split_pdfs report = None
  ↔ Exists (document_breaks layout) split_pdfs.
Proof.
  revert report. induction split_pdfs as [|p ps IH]; intros report; simpl.
  - split; [done|]. by intros ?%Exists_nil.
  - rewrite process_pdf_cases, Exists_cons. unfold document_breaks at 1.
    destruct (processed layout p) as [result|]; simpl.
    + destruct (extract_metadata result (metadata report)) as [md'|] eqn:E; simpl.
      * rewrite IH. split; [by right|]. intros [(r & [= <-] & Hb)|?]; [|done].
        apply (extract_metadata_raises_iff _ (metadata report)) in Hb. congruence.
      * split; [|done]. intros _. left. exists result. split; [done|].
        by apply (extract_metadata_raises_iff _ (metadata report)).
    + rewrite IH. split; [by right|]. by intros [(r & ? & _)|?].
Qed.

(** A run ends without a report exactly when a document that is
    processed holds a table with a cell outside of its declared grid. *)
Theorem run_raises_iff (layout : string → option AnalyzeResult)
    (split_pdfs : list PdfInfo) :
  process_split_pdfs layout split_pdfs = None
  ↔ Exists (document_breaks layout) split_pdfs.
Proof. unfold process_split_pdfs. apply process_loop_raises_iff. Qed.

(** A document on which the layout call raises, or whose result comes
    without pages or without tables, leaves no trace: the run goes as if
    the document were not in the list. *)
Theorem skipped_document_leaves_no_trace (layout : string → option AnalyzeResult)
    (before after : list PdfInfo) (pdf_info : PdfInfo) :
  processed layout pdf_info = None →
  process_split_pdfs layout (before ++ pdf_info :: after)
  = process_split_pdfs layout (before ++ after).
Proof.
  intros H. unfold process_split_pdfs. rewrite !process_loop_app.
  destruct (process_loop layout before empty_report) as [r|]; simpl; [|done].
  by rewrite process_pdf_cases, H.
Qed.

Lemma skipped_document_leaves_no_trace_witness :
  process_split_pdfs sample_layout ([federal_doc] ++ lost_doc :: [state_doc])
  = process_split_pdfs sample_layout ([federal_doc] ++ [state_doc]).
Proof.
  apply (skipped_document_leaves_no_trace sample_layout [federal_doc] [state_doc] lost_doc).
  reflexivity.
Defined.

Lemma process_loop_report layout split_pdfs report report' :
  process_loop layout split_pdfs report = Some report' →
  pageCount report' = pageCount report + pages_returned layout split_pdfs
  ∧ tables report' = tables report ++ structured_tables layout split_pdfs.
Proof.
  revert report. unfold pages_returned, structured_tables.
  induction split_pdfs as [|p ps IH]; intros report; csimpl.
  - intros [= <-]. by rewrite Nat.add_0_r, app_nil_r.
  - rewrite process_pdf_cases.
    destruct (processed layout p) as [result|]; csimpl.
    + destruct (extract_metadata _ _) as [md'|]; csimpl; [|done].
      intros [H1 H2]%IH. csimpl in *.
      rewrite H1, H2, generate_hybrid_structure_omap, <- app_assoc.
      split; [lia|done].
    + intros [H1 H2]%IH. by rewrite H1, H2.
Qed.

(** In a report, the page count is the number of pages the layout service
    returned for the documents that were processed, and the tables are the
    tables that structure, document after document in the order of the
    list and table after table in the order of each document. *)
Theorem report_aggregates_in_order (layout : string → option AnalyzeResult)
    (split_pdfs : list PdfInfo) (report : Report) :
  process_split_pdfs layout split_pdfs = Some report →
  pageCount report = pages_returned layout split_pdfs
  ∧ tables report = structured_tables layout split_pdfs.
Proof. intros [H1 H2]%process_loop_report. by rewrite H1, H2. Qed.

Lemma report_aggregates_in_order_witness :
  pageCount (report_of sample_layout [federal_doc; lost_doc; state_doc]) = 3
  ∧ tables (report_of sample_layout [federal_doc; lost_doc; state_doc])
    = omap structure_table [taxpayer_table; second_table; second_table].
Proof.
  destruct (report_aggregates_in_order sample_layout
              [federal_doc; lost_doc; state_doc]
              (report_of sample_layout [federal_doc; lost_doc; state_doc]))
    as [Hp Ht].
  - vm_compute. reflexivity.
  - split; [rewrite Hp | rewrite Ht]; vm_compute; reflexivity.
Defined.

Lemma match_seq_exact pat m post :
  PyRe.match_seq pat (m +:+ post) = Some m → PyRe.match_seq pat m = Some m.
Proof.
  revert m. induction pat as [|p pat IH]; intros m; simpl.
  - by intros [= <-].
  - destruct m as [|a m].
    + rewrite str_app_nil. destruct post as [|b post]; [done|].
      destruct (p b); [|done]. by destruct (PyRe.match_seq pat post).
    + rewrite str_app_cons. destruct (p a); [|done].
      destruct (PyRe.match_seq pat (m +:+ post)) as [m'|] eqn:E; [|done].
      simpl. intros [= ->]. by rewrite (IH _ E).
Qed.

Lemma head_filter_Some (p : string → bool) l v :
  head (List.filter p l) = Some v → p v = true ∧ v ∈ l.
Proof.
  induction l as [|x l IH]; simpl; [done|].
  destruct (p x) eqn:E.
  - intros [= <-]. split; [done|]. constructor.
  - intros [? ?]%IH. split; [done|]. by constructor.
Qed.

(** The metadata of a report holds no key but taxpayerName and
    taxpayerId; the name is a scanned cell that holds "&" and is longer
    than 10 characters; the id is 11 characters of the id pattern found in
    a scanned cell. *)
Theorem metadata_values_are_matches (layout : string → option AnalyzeResult)
    (split_pdfs : list PdfInfo) (report : Report) (k v : string) :
  process_split_pdfs layout split_pdfs = Some report →
  metadata report !! k = Some v →
  (k = "taxpayerName"
   ∧ PyStr.contains "&" v = true ∧ 10 < PyStr.len v
   ∧ v ∈ run_cells layout split_pdfs)
  ∨ (k = "taxpayerId"
     ∧ String.length v = 11 ∧ PyRe.match_seq PyRe.ssn_pattern v = Some v
     ∧ ∃ cell, cell ∈ run_cells layout split_pdfs ∧ PyStr.contains v cell = true).
Proof.
  unfold process_split_pdfs. intros Hrun Hk.
  pose proof (process_loop_metadata _ _ _ _ Hrun) as Hmd. simpl in Hmd.
  rewrite Hmd in Hk.
  destruct (decide (k = "taxpayerName")) as [->|Hn].
  - left. rewrite scan_cells_name in Hk by done.
    apply head_filter_Some in Hk as [Hlike Hin].
    unfold name_like in Hlike. apply andb_true_iff in Hlike as [H1 H2].
    apply Nat.ltb_lt in H2. done.
  - destruct (decide (k = "taxpayerId")) as [->|Hi].
    + right. rewrite scan_cells_id in Hk by done.
      apply head_Some_elem_of, list_elem_of_omap in Hk as (cell & Hin & Hs).
      apply (search_seq_first PyRe.ssn_pattern) in Hs
        as (pre & post & Hcell & Hm & Hlen & _).
      split; [done|]. split; [done|]. split; [by apply (match_seq_exact _ _ post)|].
      exists cell. split; [done|]. apply contains_iff. eauto.
    + rewrite scan_cells_other in Hk by done. done.
Qed.

Lemma metadata_values_are_matches_witness :
  PyRe.match_seq PyRe.ssn_pattern "123-45-6789" = Some "123-45-6789".
Proof.
  destruct (metadata_values_are_matches sample_layout
              [federal_doc; lost_doc; state_doc]
              (report_of sample_layout [federal_doc; lost_doc; state_doc])
              "taxpayerId" "123-45-6789")
    as [(Hk & _)|(_ & _ & Hm & _)].
  - vm_compute. reflexivity.
  - vm_compute. reflexivity.
  - discriminate Hk.
  - exact Hm.
Defined.

End Documents.

(** ** Cleaned values of a structured table *)

Section CleanedFields.
Import Builder Props Notions.

Lemma text_at_trimmed table grid r c :
  build_grid table = Some grid → is_trimmed (text_at grid r c).
Proof.
  intros Hb. unfold text_at.
  destruct (get_cell grid r c) as [cell|] eqn:E; simpl; [|done].
  by apply (built_cell_trimmed table grid r c).
Qed.

(** Text cleaning changes nothing in a structured table: the cells of the
    grid are trimmed already, so in a column that is not numeric the
    cleaned value of every field is its raw value. *)
Theorem text_fields_are_left_as_they_are (table : DocumentTable) (grid : Grid)
    (r c : nat) :
  build_grid table = Some grid → infer_data_type grid c ≠ "numeric" →
  cleanedValue (field_of grid r c) = value (field_of grid r c).
Proof.
  intros Hb Ht. simpl. unfold clean_value.
  pose proof (text_at_trimmed table grid r c Hb) as Htrim.
  destruct (text_at grid r c) as [|a s] eqn:E; [done|]. simpl negb. cbv iota.
  by rewrite bool_decide_eq_false_2.
Qed.

Lemma text_fields_are_left_as_they_are_witness :
  cleanedValue
    (field_of [["Line"; "Amount"; ""]; ["12. Wages"; "$(1,234.50)"; "note"]] 1 2)
  = "note".
Proof.
  rewrite (text_fields_are_left_as_they_are headed_table
             [["Line"; "Amount"; ""]; ["12. Wages"; "$(1,234.50)"; "note"]] 1 2);
    [reflexivity | reflexivity | vm_compute; discriminate].
Defined.

End CleanedFields.

(** ** The runner *)

Section RunnerFacts.
Import Splitter Builder Props Notions Runner.

Lemma split_pdf_without_pages od w fs :
  ocr_pass_fails w = true → split_pdf od w fs = ([], fs).
Proof.
  unfold ocr_pass_fails, split_pdf, detect_form_types_with_ocr.
  destruct (convert_from_path w) as [images|]; [|done].
  intros H. by rewrite (ocr_pages_raises _ _ _ H).
Qed.

(** When the PDF is missing, or the classification pass fails, [main]
    returns early and leaves the output directory as it was, whatever the
    credentials and the layout service are. *)
Theorem main_returns_early (env : Environment) (fs : FileSystem) :
  pdf_exists env = false ∨ ocr_pass_fails (collaborators env) = true →
  (main env fs).2 = fs
  ∧ (main env fs).1 = (if pdf_exists env then NoPdfsSplit else PdfNotFound).
Proof.
  unfold main. intros [H|H].
  - by rewrite H.
  - destruct (pdf_exists env); simpl; [|done].
    by rewrite (split_pdf_without_pages _ _ _ H).
Qed.

Lemma main_returns_early_witness :
  main run_on_failing_scan earlier_run = (NoPdfsSplit, earlier_run).
Proof.
  destruct (main_returns_early run_on_failing_scan earlier_run) as [Hfs Hout].
  - right. reflexivity.
  - destruct (main run_on_failing_scan earlier_run) as [o f].
    simpl in *. by rewrite Hfs, Hout.
Defined.

(** The credentials are read after the PDF was split: with a PDF that
    exists, the output directory is the one the splitter leaves, and [main]
    ends in the ValueError of the builder exactly when documents were split
    and the endpoint or the key is missing or empty. *)
Theorem credentials_are_checked_after_the_split (env : Environment)
    (fs : FileSystem) :
  pdf_exists env = true →
  (main env fs).2 = (split_pdf output_dir (collaborators env) fs).2
  ∧ ((main env fs).1 = CredentialsMissing
     ↔ (split_pdf output_dir (collaborators env) fs).1 ≠ []
       ∧ credentials_missing (endpoint env) (key env) = true).
Proof.
  unfold main. intros ->. simpl.
  destruct (split_pdf output_dir (collaborators env) fs) as [[|pdf pdfs] fs'];
    simpl.
  - split; [done|]. split; [done|]. by intros [? _].
  - destruct (credentials_missing (endpoint env) (key env)); simpl.
    + done.
    + destruct (process_split_pdfs _ _); simpl; split; try done;
        split; try done; by intros [_ ?].
Qed.

Lemma credentials_are_checked_after_the_split_witness :
  main run_without_endpoint earlier_run
  = (CredentialsMissing,
     {| split_dir := Some [("1_Federal.pdf", [0; 1]);
                           ("2_State__Ohio_IT1040.pdf", [2])] |}).
Proof.
  destruct (credentials_are_checked_after_the_split run_without_endpoint earlier_run)
    as [Hfs Hout].
  - reflexivity.
  - destruct (main run_without_endpoint earlier_run) as [o f]. simpl in *.
    rewrite Hfs. f_equal. apply Hout. split; [discriminate|reflexivity].
Defined.

End RunnerFacts.

(** ** Line items of trimmed values *)

Section TrimmedLineItems.
Import Builder Props Notions.
Local Arguments Ascii.eqb : simpl never.

(** When a greedy repetition fails, the rest of the pattern fails after
    every run of the class in front of the input. *)
Lemma greedy_star_none {A} p (k : string → string → option A) s m r :
  PyRe.greedy_star p k s = None →
  s = m +:+ r → all_chars p m = true → k m r = None.
Proof.
  revert k m. induction s as [|a s IH]; intros k m H Hs Hm.
  - destruct m as [|b m]; [|by rewrite str_app_cons in Hs].
    rewrite str_app_nil in Hs. subst r. done.
  - simpl in H. destruct m as [|b m].
    + rewrite str_app_nil in Hs. subst r.
      destruct (p a); [|done]. by destruct (PyRe.greedy_star p _ s).
    + rewrite str_app_cons in Hs. injection Hs as <- ->.
      simpl in Hm. apply andb_true_iff in Hm as [Ha Hm]. rewrite Ha in H.
      destruct (PyRe.greedy_star p (λ m0 r0, k (String a m0) r0) (m +:+ r)) eqn:E;
        [done|].
      by apply (IH (λ m0 r0, k (String a m0) r0) m E).
Qed.

(** A greedy repetition hands over the longest run of the class after
    which the rest of the pattern matches. *)
Lemma greedy_star_longest {A} p (k : string → string → option A) s x :
  PyRe.greedy_star p k s = Some x →
  ∃ m r, s = m +:+ r ∧ all_chars p m = true ∧ k m r = Some x
         ∧ ∀ m' r', s = m' +:+ r' → all_chars p m' = true →
                    String.length m < String.length m' → k m' r' = None.
Proof.
  revert k. induction s as [|a s IH]; intros k H.
  - simpl in H. exists "", "". repeat split; try done.
    intros [|b m'] r' Hs _ Hlen; simpl in Hlen; [lia|].
    by rewrite str_app_cons in Hs.
  - simpl in H. destruct (p a) eqn:Hp.
    + destruct (PyRe.greedy_star p (λ m0 r0, k (String a m0) r0) s) as [y|] eqn:E.
      * injection H as ->.
        apply IH in E as (m & r & -> & Hm & Hk & Hmax).
        exists (String a m), r. simpl. rewrite Hp, Hm. repeat split; try done.
        intros [|b m'] r' Hs Hm' Hlen; simpl in Hlen; [lia|].
        rewrite !str_app_cons in Hs. injection Hs as <- Hs.
        simpl in Hm'. apply andb_true_iff in Hm' as [_ Hm'].
        apply (Hmax m' r' Hs Hm'). lia.
      * exists "", (String a s). repeat split; try done.
        intros [|b m'] r' Hs Hm' Hlen; simpl in Hlen; [lia|].
        rewrite str_app_cons in Hs. injection Hs as <- Hs.
        simpl in Hm'. apply andb_true_iff in Hm' as [_ Hm'].
        by apply (greedy_star_none p (λ m0 r0, k (String a m0) r0) s m' r' E).
    + exists "", (String a s). repeat split; try done.
      intros [|b m'] r' Hs Hm' Hlen; simpl in Hlen; [lia|].
      rewrite str_app_cons in Hs. injection Hs as <- Hs.
      simpl in Hm'. apply andb_true_iff in Hm' as [Hb _]. congruence.
Qed.

Lemma all_chars_app p s t :
  all_chars p (s +:+ t) = all_chars p s && all_chars p t.
Proof.
  induction s as [|a s IH]; [done|]. rewrite str_app_cons. simpl.
  by rewrite IH, andb_assoc.
Qed.

Lemma rstrip_app_last u x a :
  PyStr.rstrip u = x +:+ String a "" → PyStr.is_space a = false.
Proof.
  revert x. induction u as [|b u IH]; intros x; simpl.
  - by destruct x.
  - destruct (PyStr.rstrip u) as [|c r] eqn:E.
    + destruct (PyStr.is_space b) eqn:Eb; [by destruct x|].
      destruct x as [|y x]; rewrite ?str_app_nil, ?str_app_cons.
      * by intros [= <-].
      * intros [= _ H]. by destruct x.
    + destruct x as [|y x]; rewrite ?str_app_nil, ?str_app_cons.
      * done.
      * intros [= _ H]. by apply (IH x).
Qed.

Lemma trimmed_app_last s x a :
  is_trimmed s → s = x +:+ String a "" → PyStr.is_space a = false.
Proof.
  unfold is_trimmed, PyStr.strip. intros Ht Hs. rewrite Hs in Ht at 2.
  by apply (rstrip_app_last _ _ _ Ht).
Qed.

Lemma trimmed_rstrip s : is_trimmed s → PyStr.rstrip s = s.
Proof.
  unfold is_trimmed, PyStr.strip. intros H.
  rewrite <- H at 1. by rewrite rstrip_rstrip.
Qed.

Lemma rstrip_suffix_fixed s t :
  PyStr.rstrip (s +:+ t) = s +:+ t → t ≠ "" → PyStr.rstrip t = t.
Proof.
  induction s as [|a s IH]; [by rewrite str_app_nil|].
  rewrite str_app_cons. simpl. intros H Ht.
  destruct (PyStr.rstrip (s +:+ t)) as [|c r] eqn:E.
  - destruct (PyStr.is_space a); [done|]. injection H as H.
    destruct s; [by rewrite str_app_nil in H|by rewrite str_app_cons in H].
  - injection H as H. by apply IH.
Qed.

(** The line item of a trimmed value loses nothing but the period and the
    whitespace after it: the value is the line number, the period,
    whitespace and the description, and the description is trimmed. *)
Lemma line_item_of_trimmed s n d :
  is_trimmed s → PyRe.line_item_re s = Some (n, d) →
  ∃ spaces,
    s = n +:+ "." +:+ spaces +:+ d
    ∧ all_chars PyStr.is_space spaces = true
    ∧ is_trimmed d.
Proof.
  intros Htrim. unfold PyRe.line_item_re.
  intros (g1 & r1 & Hs & Hne1 & Hd1 & H)%greedy_plus_sound.
  destruct r1 as [|c r2]; [done|].
  destruct (Ascii.eqb_spec c ".") as [->|Hc].
  2:{ destruct c as [[] [] [] [] [] [] [] []]; done. }
  apply greedy_star_longest in H as (sp & r3 & -> & Hsp & H & Hmax).
  apply greedy_plus_sound in H as (g2 & r4 & -> & Hne2 & Hd2 & H).
  destruct (PyRe.at_end r4) eqn:He; [|done]. injection H as <- <-.
  assert (r4 = "") as ->.
  { apply at_end_cases in He as [->| ->]; [done|].
    exfalso.
    assert (PyStr.is_space PyStr.newline = false) as Hnl; [|done].
    apply (trimmed_app_last s (g1 +:+ "." +:+ sp +:+ g2) _ Htrim).
    rewrite Hs, !str_app_assoc, !str_app_cons, !str_app_nil.
    by rewrite ?str_app_assoc. }
  rewrite str_app_nil_r in *.
  exists sp.
  split; [by rewrite str_app_cons, str_app_nil|]. split; [done|].
  destruct g2 as [|a g2']; [done|].
  assert (PyStr.is_space a = false) as Ha.
  { destruct (PyStr.is_space a) eqn:Ea; [|done]. exfalso.
    destruct g2' as [|b g2''].
    - assert (PyStr.is_space a = false); [|congruence].
      apply (trimmed_app_last s (g1 +:+ "." +:+ sp) _ Htrim).
      rewrite Hs, !str_app_assoc, !str_app_cons, !str_app_nil.
      by rewrite ?str_app_assoc.
    - assert (PyRe.greedy_plus PyStr.is_dot
                (λ g2 r4, if PyRe.at_end r4 then Some (g1, g2) else None)
                (String b g2'') = None) as Hnone.
      { apply (Hmax (sp +:+ String a "")).
        - by rewrite str_app_assoc, str_app_cons, str_app_nil.
        - rewrite all_chars_app, Hsp. simpl. by rewrite Ea.
        - rewrite str_app_length. simpl. lia. }
      simpl in Hd2. apply andb_true_iff in Hd2 as [_ Hd2].
      rewrite <- (str_app_nil_r (String b g2'')) in Hnone.
      rewrite (greedy_plus_whole PyStr.is_dot _ (String b g2'') ""
                 (g1, String b g2'')) in Hnone; done. }
  unfold is_trimmed, PyStr.strip. cbn [PyStr.lstrip]. rewrite Ha.
  apply trimmed_rstrip in Htrim.
  assert (s = (g1 +:+ "." +:+ sp) +:+ String a g2') as Hs'.
  { rewrite Hs. by repeat (rewrite str_app_assoc || rewrite str_app_cons
                           || rewrite str_app_nil). }
  rewrite Hs' in Htrim. by apply (rstrip_suffix_fixed _ _ Htrim).
Qed.

(** The line item of a field of a structured table loses nothing but the
    period and the whitespace after it: the raw value is the line number,
    the period, whitespace and the description, and the description has no
    whitespace at either end. *)
Theorem line_item_keeps_the_text (table : DocumentTable) (grid : Grid)
    (r c : nat) (n d : string) :
  build_grid table = Some grid →
  PyRe.line_item_re (value (field_of grid r c)) = Some (n, d) →
  ∃ spaces,
    value (field_of grid r c) = n +:+ "." +:+ spaces +:+ d
    ∧ all_chars PyStr.is_space spaces = true
    ∧ is_trimmed d.
Proof.
  intros Hb Hm. apply line_item_of_trimmed; [|done].
  simpl. by apply (text_at_trimmed table).
Qed.

Lemma line_item_keeps_the_text_witness :
  ∃ spaces,
    "12. Wages" = "12" +:+ "." +:+ spaces +:+ "Wages"
    ∧ all_chars PyStr.is_space spaces = true
    ∧ is_trimmed "Wages".
Proof.
  apply (line_item_keeps_the_text headed_table
           [["Line"; "Amount"; ""]; ["12. Wages"; "$(1,234.50)"; "note"]] 1 0);
    reflexivity.
Defined.

End TrimmedLineItems.

(** ** A table that breaks its grid *)

Section TableFailures.
Import Builder Props Notions.

(** C7. A table failure is not contained when the grid of the table
    cannot be built. When a table of a processed document has a cell
    outside of its declared grid, the body of the [try] raises on it, and
    [generate_hybrid_structure] on the result of the document leaves that
    table out and keeps the tables before and after it that structure.
    But [extract_metadata] builds the same grid outside of any [try] and
    is called first: it raises on the document whatever was recorded
    before, the iteration on the document raises, and the run ends
    without a report, whatever documents come before and after. *)
Theorem malformed_grid_ends_run (layout : string → option AnalyzeResult)
    (before after : list PdfInfo) (pdf_info : PdfInfo) (result : AnalyzeResult)
    (tables_before tables_after : list DocumentTable) (t : DocumentTable) :
  processed layout pdf_info = Some result →
  result_tables result = Some (tables_before ++ t :: tables_after) →
  breaks_grid t →
  structure_table t = None
  ∧ generate_hybrid_structure result (default "Unknown" (form_type pdf_info))
    = omap structure_table tables_before ++ omap structure_table tables_after
  ∧ (∀ metadata, extract_metadata result metadata = None)
  ∧ (∀ report, process_pdf layout report pdf_info = None)
  ∧ process_split_pdfs layout (before ++ pdf_info :: after) = None.
Proof.
  intros Hres Hts Ht.
  assert (structure_table t = None) as Hs.
  { unfold structure_table. apply build_grid_none_iff in Ht. by rewrite Ht. }
  assert (∀ metadata, extract_metadata result metadata = None) as Hmd.
  { intros metadata. apply extract_metadata_raises_iff.
    unfold tables_of. rewrite Hts. simpl.
    apply Exists_app. right. by left. }
  split; [done|]. split.
  { rewrite generate_hybrid_structure_omap, Hts. simpl.
    rewrite omap_app. csimpl. by rewrite Hs. }
  split; [done|]. split.
  { intros report. by rewrite process_pdf_cases, Hres, Hmd. }
  unfold process_split_pdfs. apply process_loop_raises_iff.
  apply Exists_app. right. left. exists result. split; [done|].
  by apply (extract_metadata_raises_iff result ∅).
Qed.

Lemma malformed_grid_ends_run_witness :
  structure_table overflowing_table = None
  ∧ generate_hybrid_structure overflowing_result "Unknown"
    = omap structure_table [taxpayer_table]
  ∧ extract_metadata overflowing_result ∅ = None
  ∧ process_pdf sample_layout empty_report overflowing_doc = None
  ∧ process_split_pdfs sample_layout [federal_doc; overflowing_doc; state_doc]
    = None.
Proof.
  destruct (malformed_grid_ends_run sample_layout [federal_doc] [state_doc]
              overflowing_doc overflowing_result [taxpayer_table] []
              overflowing_table)
    as (Hs & Hout & Hmd & Hpdf & Hrun).
  - reflexivity.
  - reflexivity.
  - apply Exists_cons_hd. reflexivity.
  - split; [exact Hs|]. split; [|split; [apply Hmd|split; [apply Hpdf|exact Hrun]]].
    rewrite app_nil_r in Hout. exact Hout.
Defined.

End TableFailures.
